(** * Network client layer of javascript-opentimestamps

    A shallow embedding of [calendar.js] (classes [RemoteCalendar] and
    [UrlWhitelist], with the module constants) and of [esplora.js] (class
    [Esplora]).  Promise chains are state-passing computations over the
    table of armed timers and the console; the remote server, the decoder of
    [timestamp.js] and the other platform services are inputs of the
    model. *)

From Stdlib Require Import ZArith String Ascii.
From Stdlib.Strings Require Import Byte.
From stdpp Require Import base decidable option list strings pretty gmap.

Set Warnings "-register-all,-clear-no-such-hyp".

Local Open Scope string_scope.
Local Open Scope Z_scope.

(** ** JavaScript values *)

(** The values the two modules handle: arguments of [UrlWhitelist.add],
    parsed JSON bodies and error messages.  Numbers are the integers (JSON
    bodies with fractional numbers are outside the model). *)
Inductive JsValue : Type :=
  | JUndefined
  | JNull
  | JBool (b : bool)
  | JNum (n : Z)
  | JStr (s : string)
  | JArr (items : list JsValue)
  | JObj (fields : list (string * JsValue)).

(** [!!v] of JavaScript. *)
Definition truthy (v : JsValue) : bool :=
  match v with
  | JUndefined | JNull => false
  | JBool b => b
  | JNum n => negb (n =? 0)
  | JStr s => negb (String.eqb s "")
  | JArr _ | JObj _ => true
  end.

(** [a || b] of JavaScript. *)
Definition js_or (a b : JsValue) : JsValue := if truthy a then a else b.

Fixpoint assoc (k : string) (fields : list (string * JsValue)) : JsValue :=
  match fields with
  | [] => JUndefined
  | (k', v) :: rest => if String.eqb k k' then v else assoc k rest
  end.

(** [v.k] for a data key [k] that no prototype defines ([merkle_root],
    [timestamp]): the own property of an object, [undefined] elsewhere. *)
Definition get_prop (v : JsValue) (k : string) : JsValue :=
  match v with
  | JObj fields => assoc k fields
  | _ => JUndefined
  end.

(** ** Errors *)

(** An error object is either an instance of a class made by [Error.extend]
    in the module at hand, or any other error (the platform's [Error],
    [TypeError], [DOMException], or one raised by a collaborator), known
    by its [name] and [message]. *)
Inductive JsError : Type :=
  | NativeError (name : string) (message : string)
  | ExtendedError (subTypeName : string) (message : JsValue).

(** An error class of the module: the value of [Error.extend(subTypeName)]. *)
Record ErrorClass : Type := { subTypeName_of : string }.

(** Modelled from the spec: [extend-error.js] is not among the sources.
    [Error.extend(name)] gives a class of errors of that [name], each
    carrying a message payload ([message || '']); calling the class with
    or without [new] builds an instance. *)
Definition Error_extend (subTypeName : string) : ErrorClass :=
  {| subTypeName_of := subTypeName |}.

(** [new C(message)] and [C(message)] for a class [C] made by
    [Error.extend]. *)
Definition new_ (C : ErrorClass) (message : JsValue) : JsError :=
  ExtendedError (subTypeName_of C) (js_or message (JStr "")).

(** [new Error(message)]. *)
Definition new_Error (message : string) : JsError := NativeError "Error" message.

(** [err.name]. *)
Definition err_name (err : JsError) : string :=
  match err with
  | NativeError name _ => name
  | ExtendedError name _ => name
  end.

(** [err.message]. *)
Definition err_message (err : JsError) : JsValue :=
  match err with
  | NativeError _ message => JStr message
  | ExtendedError _ message => message
  end.

(** [err instanceof C] for a class [C] of the module. *)
Definition instanceof (err : JsError) (C : ErrorClass) : bool :=
  match err with
  | NativeError _ _ => false
  | ExtendedError name _ => String.eqb name (subTypeName_of C)
  end.

(** ** Glob matching *)

Module Glob.

(** Modelled from the spec: the [minimatch] package is not among the
    sources.  A [*] in the pattern matches any run of characters, a [?]
    matches one character, every other character matches itself. *)
Fixpoint glob (pattern : list ascii) (s : list ascii) : bool :=
  match pattern with
  | [] => match s with [] => true | _ :: _ => false end
  | c :: pattern' =>
      if Ascii.eqb c "*" then
        (fix star (s : list ascii) : bool :=
           glob pattern' s ||
           match s with [] => false | _ :: s' => star s' end) s
      else
        match s with
        | [] => false
        | d :: s' => (Ascii.eqb c "?" || Ascii.eqb c d) && glob pattern' s'
        end
  end.

(** [minimatch(path, pattern)] on this matcher. *)
Definition minimatch (path pattern : string) : bool :=
  glob (list_ascii_of_string pattern) (list_ascii_of_string path).

End Glob.

(** ** [UrlWhitelist] *)

Module UrlWhitelist.

(** The object: [this.urls], a [Set] of strings. *)
Record t : Type := { urls : gset string }.

(** [add(url)]: a [TypeError] for a non-string, else the whitelist with the
    pattern(s) inserted. *)
Definition add (url : JsValue) (this : t) : JsError + t :=
  match url with
  | JStr url =>
      if String.prefix "http://" url || String.prefix "https://" url then
        inr {| urls := urls this ∪ {[ url ]} |}
      else
        inr {| urls := urls this ∪ {[ "http://" +:+ url ]} ∪ {[ "https://" +:+ url ]} |}
  | _ => inl (NativeError "TypeError" "URL must be a string")
  end.

(** [urls.forEach(u => this.add(u))]: stops at the first throw. *)
Fixpoint add_all (us : list JsValue) (this : t) : JsError + t :=
  match us with
  | [] => inr this
  | u :: rest =>
      match add u this with
      | inl err => inl err
      | inr this' => add_all rest this'
      end
  end.

(** The object after [this.urls = new Set()]. *)
Definition fresh : t := {| urls := ∅ |}.

(** [new UrlWhitelist(urls)]; [None] is a call without the argument. *)
Definition new (us : option (list JsValue)) : JsError + t :=
  match us with
  | None => inr fresh
  | Some us => add_all us fresh
  end.

(** [contains(url)], with the function that the module binds to the name
    [minimatch] as its first argument. *)
Definition contains (minimatch : string → string → bool) (url : string) (this : t)
  : bool :=
  bool_decide
    (0 < length (filter (λ u, minimatch url u = true) (elements (urls this))))%nat.

End UrlWhitelist.

(** The patterns of [DEFAULT_CALENDAR_WHITELIST]. *)
Definition DEFAULT_CALENDAR_WHITELIST_urls : list JsValue :=
  [ JStr "https://*.calendar.opentimestamps.org";
    JStr "https://*.calendar.eternitywall.com";
    JStr "https://*.calendar.catallaxy.com" ].

Definition DEFAULT_CALENDAR_WHITELIST : JsError + UrlWhitelist.t :=
  UrlWhitelist.new (Some DEFAULT_CALENDAR_WHITELIST_urls).

Definition DEFAULT_AGGREGATORS : list string :=
  [ "https://a.pool.opentimestamps.org";
    "https://b.pool.opentimestamps.org";
    "https://a.pool.eternitywall.com";
    "https://ots.btc.catallaxy.com" ].

(** ** Timers, console and promises *)

(** What a call can change outside itself: the timers that are armed and
    have neither fired nor been cleared, and the lines written to the
    console. *)
Record World : Type := {
  timers : gset nat;
  next_timer : nat;
  console : list string
}.

(** [setTimeout(callback, delay)]: arms a timer and returns its handle. *)
Definition setTimeout (w : World) : nat * World :=
  (next_timer w,
   {| timers := timers w ∪ {[ next_timer w ]};
      next_timer := S (next_timer w);
      console := console w |}).

(** [clearTimeout(id)]. *)
Definition clearTimeout (id : nat) (w : World) : World :=
  {| timers := timers w ∖ {[ id ]};
     next_timer := next_timer w;
     console := console w |}.

(** The timer [id] fires: its callback runs and it is no longer pending. *)
Definition fire (id : nat) (w : World) : World :=
  {| timers := timers w ∖ {[ id ]};
     next_timer := next_timer w;
     console := console w |}.

(** [console.error(line)]. *)
Definition console_error (line : string) (w : World) : World :=
  {| timers := timers w;
     next_timer := next_timer w;
     console := console w ++ [line] |}.

(** The state of a promise once the event loop has nothing left to run. *)
Inductive Settled (A : Type) : Type :=
  | Resolved (a : A)
  | Rejected (err : JsError)
  | Pending.
Arguments Resolved {A} a.
Arguments Rejected {A} err.
Arguments Pending {A}.

Definition Async (A : Type) : Type := World → Settled A * World.

Definition resolve {A} (a : A) : Async A := λ w, (Resolved a, w).
Definition throw {A} (err : JsError) : Async A := λ w, (Rejected err, w).
Definition never {A} : Async A := λ w, (Pending, w).

(** [p.then(f)]. *)
Definition then_ {A B} (p : Async A) (f : A → Async B) : Async B :=
  λ w, match p w with
       | (Resolved a, w') => f a w'
       | (Rejected err, w') => (Rejected err, w')
       | (Pending, w') => (Pending, w')
       end.

(** [p.catch(h)]. *)
Definition catch_ {A} (p : Async A) (h : JsError → Async A) : Async A :=
  λ w, match p w with
       | (Rejected err, w') => h err w'
       | settled => settled
       end.

(** A statement run for its effect on the world, then the rest. *)
Definition seq {A} (effect : World → World) (rest : Async A) : Async A :=
  λ w, rest (effect w).

(** [if (timeoutId) clearTimeout(timeoutId)]; a handle is always truthy. *)
Definition clear_if_set (timeoutId : option nat) (w : World) : World :=
  match timeoutId with
  | Some id => clearTimeout id w
  | None => w
  end.

(** ** The platform and the network *)

(** An error raised by code outside the module ([fetch], a body reader, the
    decoder): not an instance of the module's own classes. *)
Record Foreign : Type := { f_name : string; f_message : string }.

Definition raise (f : Foreign) : JsError := NativeError (f_name f) (f_message f).

(** A promise made by the platform. *)
Inductive Reply (A : Type) : Type :=
  | Arrives (a : A)
  | Breaks (f : Foreign)
  | Stalls.
Arguments Arrives {A} a.
Arguments Breaks {A} f.
Arguments Stalls {A}.

Definition await {A} (r : Reply A) : Async A :=
  match r with
  | Arrives a => resolve a
  | Breaks f => throw (raise f)
  | Stalls => never
  end.

(** A [Response] of [fetch]: status line and what each body reader gives. *)
Record Response : Type := {
  status : Z;
  statusText : string;
  arrayBuffer : Reply (list byte);
  text : Reply string;
  json : Reply JsValue
}.

(** [response.ok]. *)
Definition ok (response : Response) : bool :=
  (200 <=? status response) && (status response <=? 299).

Record Request : Type := {
  req_url : string;
  method : string;
  req_headers : list (string * string);
  req_body : option (list byte)
}.

(** What the server does with a request: answer, fail in transport, or
    stay silent for as long as the caller waits. *)
Inductive ServerBehaviour : Type :=
  | Responds (response : Response)
  | Fails (f : Foreign)
  | Silent (abort_message : string).

Definition Network : Type := Request → ServerBehaviour.

(** [fetch(url, options)] with [options.signal] the signal of a controller
    that the timer [timeoutId] aborts.  Against a silent server the armed
    timer fires and the request is rejected with the platform's
    [AbortError]; with no timer armed the promise never settles. *)
Definition fetch (net : Network) (req : Request) (timeoutId : option nat)
  : Async Response :=
  λ w, match net req with
       | Responds response => (Resolved response, w)
       | Fails f => (Rejected (raise f), w)
       | Silent abort_message =>
           match timeoutId with
           | Some id =>
               if decide (id ∈ timers w)
               then (Rejected (NativeError "AbortError" abort_message), fire id w)
               else (Pending, w)
           | None => (Pending, w)
           end
       end.

(** The transport fails with [f]: the request itself does, or the reading
    of the body behind a success status does. *)
Definition transport_fails {A} (net : Network) (req : Request)
    (reader : Response → Reply A) (f : Foreign) : Prop :=
  net req = Fails f
  ∨ ∃ response,
      net req = Responds response ∧ ok response = true ∧ reader response = Breaks f.

(** Services the modules call and that are not theirs. *)
Class Platform : Type := {
  (** the proof object of [timestamp.js] *)
  Timestamp : Type;
  (** [Timestamp.deserialize(new Context.StreamDeserialization(body), digest)] *)
  Timestamp_deserialize : list byte → list byte → Foreign + Timestamp;
  (** [err.toString()] *)
  toString : JsError → string;
  (** [String(v)] for a value that is not a string *)
  String_of : JsValue → string;
  (** [new URL(path, base)], as its text *)
  URL_new : string → string → string;
  (** [Utils.bytesToHex] *)
  bytesToHex : list byte → string;
  (** [process.browser] *)
  process_browser : bool
}.

(** [String(v)]. *)
Definition to_String `{Platform} (v : JsValue) : string :=
  match v with
  | JStr s => s
  | _ => String_of v
  end.

(** [err.message || err.toString()]. *)
Definition message_or_toString `{Platform} (err : JsError) : JsValue :=
  js_or (err_message err) (JStr (toString err)).

(** The template literal [`HTTP ${response.status}: ${response.statusText}`]. *)
Definition http_status_line (response : Response) : string :=
  "HTTP " +:+ pretty (status response) +:+ ": " +:+ statusText response.

(** ** [RemoteCalendar] *)

Module Calendar.

(* Errors *)
Definition CommitmentNotFoundError : ErrorClass := Error_extend "CommitmentNotFoundError".
Definition URLError : ErrorClass := Error_extend "URLError".
Definition ExceededSizeError : ErrorClass := Error_extend "ExceededSizeError".

(** The object: [this.url], [this.headers], and [this.timeout], which the
    constructor leaves undefined. *)
Record RemoteCalendar : Type := {
  url : string;
  headers : list (string * string);
  timeout : JsValue
}.

(** An error of one of the two classes that name an outcome of the
    exchange: too large a body, an unknown commitment. *)
Definition classified (err : JsError) : bool :=
  instanceof err ExceededSizeError || instanceof err CommitmentNotFoundError.

Section Methods.
Context `{Platform}.

(** [new RemoteCalendar(url)]. *)
Definition new (url : string) : RemoteCalendar :=
  {| url := url;
     headers :=
       [ ("Accept", "application/vnd.opentimestamps.v1");
         ("Content-Type", "application/x-www-form-urlencoded") ]
       ++ (if negb process_browser
           then [ ("User-Agent", "javascript-opentimestamps") ]
           else []);
     timeout := JUndefined |}.

(** [this.timeout ? setTimeout(() => controller.abort(), this.timeout) : null]. *)
Definition arm (this : RemoteCalendar) (w : World) : option nat * World :=
  if truthy (timeout this)
  then let '(id, w') := setTimeout w in (Some id, w')
  else (None, w).

(** The chain of [submit] up to, and without, its [.catch]. *)
Definition submit_chain (digest : list byte) (net : Network) (req : Request)
    (timeoutId : option nat) : Async Timestamp :=
  then_
    (then_ (fetch net req timeoutId)
       (λ response,
          seq (clear_if_set timeoutId)
            (if negb (ok response)
             then throw (new_ URLError (JStr (http_status_line response)))
             else await (arrayBuffer response))))
    (λ arrayBuffer,
       let body := arrayBuffer in
       if 10000 <? Z.of_nat (length body)
       then throw (new_ ExceededSizeError (JStr "Calendar response exceeded size limit"))
       else match Timestamp_deserialize body digest with
            | inl f => throw (raise f)
            | inr timestamp => resolve timestamp
            end).

(** The handler of [submit]'s [.catch]. *)
Definition submit_catch (timeoutId : option nat) (err : JsError) : Async Timestamp :=
  seq (clear_if_set timeoutId)
    (if String.eqb (err_name err) "AbortError"
     then throw (new_ URLError (JStr "Request timeout"))
     else if instanceof err ExceededSizeError || instanceof err URLError
     then throw err
     else throw (new_ URLError (message_or_toString err))).

(** The [url] and [options] that [submit] hands to [fetch]. *)
Definition submit_request (this : RemoteCalendar) (digest : list byte) : Request :=
  let url := URL_new "/digest" (url this) in
  {| req_url := url; method := "POST"; req_headers := headers this;
     req_body := Some digest |}.

(** [submit(digest)]. *)
Definition submit (this : RemoteCalendar) (digest : list byte) (net : Network)
  : Async Timestamp :=
  λ w,
    let '(timeoutId, w) := arm this w in
    catch_ (submit_chain digest net (submit_request this digest) timeoutId)
      (submit_catch timeoutId) w.

(** The chain of [getTimestamp] up to, and without, its [.catch]. *)
Definition getTimestamp_chain (commitment : list byte) (net : Network)
    (req : Request) (timeoutId : option nat) : Async Timestamp :=
  then_
    (then_ (fetch net req timeoutId)
       (λ response,
          seq (clear_if_set timeoutId)
            (if status response =? 404
             then throw (new_ CommitmentNotFoundError (JStr "Commitment not found"))
             else if negb (ok response)
             then throw (new_Error (http_status_line response))
             else await (arrayBuffer response))))
    (λ arrayBuffer,
       let body := arrayBuffer in
       if 10000 <? Z.of_nat (length body)
       then throw (new_ ExceededSizeError (JStr "Calendar response exceeded size limit"))
       else match Timestamp_deserialize body commitment with
            | inl f => throw (raise f)
            | inr timestamp => resolve timestamp
            end).

(** The handler of [getTimestamp]'s [.catch]. *)
Definition getTimestamp_catch (timeoutId : option nat) (err : JsError)
  : Async Timestamp :=
  seq (clear_if_set timeoutId)
    (if String.eqb (err_name err) "AbortError"
     then throw (new_Error "Request timeout")
     else if instanceof err CommitmentNotFoundError || instanceof err ExceededSizeError
     then throw err
     else throw (new_Error (to_String (message_or_toString err)))).

(** The [url] and [options] that [getTimestamp] hands to [fetch]. *)
Definition getTimestamp_request (this : RemoteCalendar) (commitment : list byte)
  : Request :=
  let url := URL_new ("/timestamp/" +:+ bytesToHex commitment) (url this) in
  {| req_url := url; method := "GET"; req_headers := headers this;
     req_body := None |}.

(** [getTimestamp(commitment)]. *)
Definition getTimestamp (this : RemoteCalendar) (commitment : list byte)
    (net : Network) : Async Timestamp :=
  λ w,
    let '(timeoutId, w) := arm this w in
    catch_ (getTimestamp_chain commitment net (getTimestamp_request this commitment) timeoutId)
      (getTimestamp_catch timeoutId) w.

End Methods.
End Calendar.

(** ** [Esplora] *)

Module Esplora.

Definition URLError : ErrorClass := Error_extend "URLError".

(* Default public Esplora explorer url *)
Definition PUBLIC_ESPLORA_URL : string := "https://blockstream.info/api".

(** The [options] argument of the constructor; [None] is an absent key. *)
Record Options : Type := {
  opt_url : option string;
  opt_timeout : option Z
}.

Record Esplora : Type := {
  url : string;
  timeout : Z
}.

(** [new Esplora(options)]. *)
Definition new (options : Options) : Esplora :=
  {| url := match opt_url options with
            | Some u => if truthy (JStr u) then u else PUBLIC_ESPLORA_URL
            | None => PUBLIC_ESPLORA_URL
            end;
     timeout := match opt_timeout options with
                | Some t => if truthy (JNum t) then t else 1000
                | None => 1000
                end |}.

(** The object [block] resolves with. *)
Record BlockHeader : Type := {
  merkleroot : JsValue;
  time : JsValue
}.

Section Methods.
Context `{Platform}.

(** The handler of both [.catch]es. *)
Definition on_error {A} (timeoutId : nat) (err : JsError) : Async A :=
  seq (clearTimeout timeoutId)
    (let err :=
       if String.eqb (err_name err) "AbortError"
       then new_Error "Request timeout"
       else err in
     seq (console_error ("Response error: " +:+ String.substring 0 100 (toString err)))
       (throw err)).

(** The chain of [blockhash] up to, and without, its [.catch]. *)
Definition blockhash_chain (net : Network) (req : Request) (timeoutId : nat)
  : Async string :=
  then_
    (then_ (fetch net req (Some timeoutId))
       (λ response,
          seq (clearTimeout timeoutId)
            (if negb (ok response)
             then throw (new_Error (http_status_line response))
             else await (text response))))
    (λ body,
       if negb (truthy (JStr body))
       then throw (new_ URLError (JStr "Empty body"))
       else resolve body).

(** The [url] and [options] that [blockhash] hands to [fetch]. *)
Definition blockhash_request (this : Esplora) (height : string) : Request :=
  let url := url this +:+ "/block-height/" +:+ height in
  {| req_url := url; method := "GET"; req_headers := [ ("Accept", "text/plain") ];
     req_body := None |}.

(** [blockhash(height)]. *)
Definition blockhash (this : Esplora) (height : string) (net : Network)
  : Async string :=
  λ w,
    let '(timeoutId, w) := setTimeout w in
    catch_ (blockhash_chain net (blockhash_request this height) timeoutId)
      (on_error timeoutId) w.

(** The chain of [block] up to, and without, its [.catch]. *)
Definition block_chain (net : Network) (req : Request) (timeoutId : nat)
  : Async BlockHeader :=
  then_
    (then_ (fetch net req (Some timeoutId))
       (λ response,
          seq (clearTimeout timeoutId)
            (if negb (ok response)
             then throw (new_Error (http_status_line response))
             else await (json response))))
    (λ body,
       if negb (truthy body)
       then throw (new_ URLError (JStr "Empty body"))
       else if negb (truthy (get_prop body "merkle_root"))
               || negb (truthy (get_prop body "timestamp"))
       then throw (new_ URLError body)
       else resolve {| merkleroot := get_prop body "merkle_root";
                       time := get_prop body "timestamp" |}).

(** The [url] and [options] that [block] hands to [fetch]. *)
Definition block_request (this : Esplora) (hash : string) : Request :=
  let url := url this +:+ "/block/" +:+ hash in
  {| req_url := url; method := "GET";
     req_headers := [ ("Accept", "application/json") ];
     req_body := None |}.

(** [block(hash)]. *)
Definition block (this : Esplora) (hash : string) (net : Network)
  : Async BlockHeader :=
  λ w,
    let '(timeoutId, w) := setTimeout w in
    catch_ (block_chain net (block_request this hash) timeoutId)
      (on_error timeoutId) w.

End Methods.
End Esplora.

(** ** Sample inputs *)

Module Sample.

(** A platform whose decoder accepts every body and returns it. *)
Definition platform : Platform :=
  {| Timestamp := list byte;
     Timestamp_deserialize := λ body _, inr body;
     toString := err_name;
     String_of := λ _, "[object Object]";
     URL_new := λ path base, base +:+ path;
     bytesToHex := λ _, "00";
     process_browser := false |}.

Definition world : World := {| timers := ∅; next_timer := 1; console := [] |}.

Definition calendar : Calendar.RemoteCalendar :=
  {| Calendar.url := "https://a.pool.opentimestamps.org";
     Calendar.headers := Calendar.headers (Calendar.new (H := platform) "");
     Calendar.timeout := JNum 5000 |}.

Definition esplora : Esplora.Esplora :=
  Esplora.new {| Esplora.opt_url := None; Esplora.opt_timeout := None |}.

Definition digest : list byte := [ x01; x02; x03 ].

(** A body of 10,001 bytes, and one of 10,001 characters. *)
Definition long_bytes : list byte := replicate (Z.to_nat 10001) x30.
Definition long_text : string := string_of_list_ascii (replicate (Z.to_nat 10001) "0"%char).

(** A response with the same payload behind every reader. *)
Definition response (status : Z) (statusText : string) (bytes : list byte)
    (text : string) (json : JsValue) : Response :=
  {| status := status; statusText := statusText;
     arrayBuffer := Arrives bytes; text := Arrives text; json := Arrives json |}.

Definition header_json : JsValue :=
  JObj [ ("merkle_root", JStr "abc"); ("timestamp", JNum 123) ].

End Sample.

(** ** Notions used to state properties *)

(** [url.startsWith('http://') || url.startsWith('https://')], the test of
    [UrlWhitelist.add]. *)
Definition has_scheme (url : string) : bool :=
  String.prefix "http://" url || String.prefix "https://" url.

(** [typeof v === 'string']. *)
Definition is_string (v : JsValue) : bool :=
  match v with
  | JStr _ => true
  | _ => false
  end.

(** The line that the handler of [Esplora] writes for [err]. *)
Definition response_error_line `{Platform} (err : JsError) : string :=
  "Response error: " +:+ String.substring 0 100 (toString err).

(** A computation that leaves the console as it found it. *)
Definition keeps_console {A} (p : Async A) : Prop :=
  ∀ w, console (p w).2 = console w.

(** Every pending timer was armed before: its handle is below the next one
    to be given out. *)
Definition handles_fresh (w : World) : Prop :=
  ∀ id, id ∈ timers w → (id < next_timer w)%nat.

Module Probe.


(** A body of exactly 10,000 bytes. *)
Definition full_bytes : list byte := replicate (Z.to_nat 10000) x30.



End Probe.

(** * Properties *)

(** ** Glob matching and the whitelist *)

Section GlobFacts.

Lemma glob_star_unfold (p s : list ascii) :
  Glob.glob ("*"%char :: p) s =
  Glob.glob p s || match s with [] => false | _ :: s' => Glob.glob ("*"%char :: p) s' end.
Proof. destruct s; reflexivity. Qed.

(** A character other than [*] matches itself. *)
Lemma glob_literal (c : ascii) (p s : list ascii) :
  Ascii.eqb c "*" = false → Glob.glob (c :: p) (c :: s) = Glob.glob p s.
Proof.
  intros Hc. cbn [Glob.glob]. rewrite Hc, Ascii.eqb_refl.
  by rewrite orb_true_r.
Qed.

(** Every pattern matches itself. *)
Lemma glob_refl (p : list ascii) : Glob.glob p p = true.
Proof.
  induction p as [|c p IH]; [reflexivity|].
  destruct (Ascii.eqb c "*") eqn:Hc.
  - apply Ascii.eqb_eq in Hc. subst c.
    rewrite glob_star_unfold. rewrite (glob_star_unfold p p), IH.
    apply orb_true_r.
  - cbn [Glob.glob]. rewrite Hc, Ascii.eqb_refl, IH.
    rewrite orb_true_r. reflexivity.
Qed.

(** A [*] takes up any run of characters, whatever they are. *)
Lemma glob_star_app (p run rest : list ascii) :
  Glob.glob p rest = true → Glob.glob ("*"%char :: p) (run ++ rest) = true.
Proof.
  intros Hrest. induction run as [|c run IH].
  - rewrite glob_star_unfold. cbn [app]. rewrite Hrest. reflexivity.
  - rewrite glob_star_unfold. cbn [app]. rewrite IH. apply orb_true_r.
Qed.

Lemma minimatch_refl (u : string) : Glob.minimatch u u = true.
Proof. apply glob_refl. Qed.

End GlobFacts.

Section WhitelistFacts.
Import UrlWhitelist.
Variable minimatch : string → string → bool.

Lemma contains_iff (url : string) (this : t) :
  contains minimatch url this = true
  ↔ ∃ u, u ∈ urls this ∧ minimatch url u = true.
Proof.
  unfold contains. rewrite bool_decide_eq_true. split.
  - intros Hlen.
    destruct (filter (λ u, minimatch url u = true) (elements (urls this)))
      as [|u l] eqn:Hf; [cbn in Hlen; lia|].
    assert (Hu : u ∈ filter (λ u, minimatch url u = true) (elements (urls this)))
      by (rewrite Hf; left).
    apply list_elem_of_filter in Hu as [Hm Hin].
    exists u. split; [by apply elem_of_elements | done].
  - intros (u & Hin & Hm).
    assert (Hu : u ∈ filter (λ u, minimatch url u = true) (elements (urls this)))
      by (apply list_elem_of_filter; split; [done | by apply elem_of_elements]).
    destruct (filter _ _); [by apply not_elem_of_nil in Hu | cbn; lia].
Qed.

Lemma contains_false_iff (url : string) (this : t) :
  contains minimatch url this = false
  ↔ ∀ u, u ∈ urls this → minimatch url u = false.
Proof.
  rewrite <- not_true_iff_false, contains_iff. split.
  - intros Hno u Hin. apply not_true_iff_false. intros Hm. apply Hno. eauto.
  - intros Hall (u & Hin & Hm). rewrite (Hall u Hin) in Hm. discriminate.
Qed.

End WhitelistFacts.

Section WhitelistClaims.
Import UrlWhitelist.

Lemma list_ascii_of_string_app (a b : string) :
  list_ascii_of_string (a +:+ b)
  = (list_ascii_of_string a ++ list_ascii_of_string b)%list.
Proof. induction a as [|c a IH]; [reflexivity|]. simpl. by rewrite IH. Qed.

Lemma https_prefix (rest : string) :
  String.prefix "https://" ("https://" +:+ rest) = true.
Proof. simpl. by destruct rest. Qed.

(** C4: [add] of a string without scheme inserts the two patterns
    [http://url] and [https://url], and both are then contained whenever
    the matcher lets a pattern match itself, as for ["example.com"]; [add] of
    a string that carries a scheme inserts that one pattern, and after
    [add("https://example.com")] alone the [http://] candidates,
    ["http://example.com"] among them, are not contained. *)
Theorem add_inserts_a_pattern_per_scheme :
  (∀ (url : string) (this : t),
     String.prefix "http://" url || String.prefix "https://" url = false →
     ∃ this',
       add (JStr url) this = inr this' ∧
       urls this' = urls this ∪ {[ "http://" +:+ url ]} ∪ {[ "https://" +:+ url ]} ∧
       ∀ minimatch : string → string → bool,
         (minimatch ("http://" +:+ url) ("http://" +:+ url) = true →
          contains minimatch ("http://" +:+ url) this' = true) ∧
         (minimatch ("https://" +:+ url) ("https://" +:+ url) = true →
          contains minimatch ("https://" +:+ url) this' = true)) ∧
  (∀ (url : string) (this : t),
     String.prefix "http://" url || String.prefix "https://" url = true →
     ∃ this',
       add (JStr url) this = inr this' ∧ urls this' = urls this ∪ {[ url ]}) ∧
  (∃ this',
     add (JStr "example.com") fresh = inr this' ∧
     urls this' = {[ "http://example.com"; "https://example.com" ]} ∧
     contains Glob.minimatch "http://example.com" this' = true ∧
     contains Glob.minimatch "https://example.com" this' = true) ∧
  (∀ rest candidate : string,
     ∃ this',
       add (JStr ("https://" +:+ rest)) fresh = inr this' ∧
       contains Glob.minimatch ("http://" +:+ candidate) this' = false) ∧
  (∃ this',
     add (JStr "https://example.com") fresh = inr this' ∧
     urls this' = {[ "https://example.com" ]} ∧
     contains Glob.minimatch "http://example.com" this' = false).
Proof.
  assert (Hbare : ∀ (url : string) (this : t),
     String.prefix "http://" url || String.prefix "https://" url = false →
     ∃ this',
       add (JStr url) this = inr this' ∧
       urls this' = urls this ∪ {[ "http://" +:+ url ]} ∪ {[ "https://" +:+ url ]} ∧
       ∀ minimatch : string → string → bool,
         (minimatch ("http://" +:+ url) ("http://" +:+ url) = true →
          contains minimatch ("http://" +:+ url) this' = true) ∧
         (minimatch ("https://" +:+ url) ("https://" +:+ url) = true →
          contains minimatch ("https://" +:+ url) this' = true)).
  { intros url this Hpre. eexists. unfold add. rewrite Hpre.
    split; [reflexivity|]. split; [reflexivity|].
    intros minimatch. split; intros Hself; apply contains_iff; eexists;
      (split; [|exact Hself]); cbn [urls]; set_solver. }
  assert (Hschemed : ∀ rest candidate : string,
     ∃ this',
       add (JStr ("https://" +:+ rest)) fresh = inr this' ∧
       contains Glob.minimatch ("http://" +:+ candidate) this' = false).
  { intros rest candidate.
    exists {| urls := urls fresh ∪ {[ "https://" +:+ rest ]} |}.
    split; [unfold add; by rewrite https_prefix, orb_true_r|].
    apply contains_false_iff. cbn [urls fresh]. intros u Hu.
    apply elem_of_union in Hu as [Hu|Hu]; [by apply not_elem_of_empty in Hu|].
    apply elem_of_singleton in Hu. subst u.
    unfold Glob.minimatch. simpl. reflexivity. }
  split; [exact Hbare|]. split.
  { intros url this Hpre. eexists. unfold add. rewrite Hpre. eauto. }
  split.
  { destruct (Hbare "example.com" fresh eq_refl) as (this' & Hadd & Hurls & Hc).
    exists this'. split; [exact Hadd|]. split.
    - rewrite Hurls. cbn [urls fresh]. set_solver.
    - split; apply (Hc Glob.minimatch); apply minimatch_refl. }
  split; [exact Hschemed|].
  exists {| urls := urls fresh ∪ {[ "https://example.com" ]} |}.
  split; [reflexivity|]. split; [cbn [urls fresh]; set_solver|].
  destruct (Hschemed "example.com" "example.com") as (this' & Hadd & Hc).
  unfold add in Hadd. rewrite https_prefix, orb_true_r in Hadd.
  injection Hadd as <-. exact Hc.
Qed.

(** A worked instance of the theorem on the bare host ["example.com"]. *)
Lemma add_inserts_a_pattern_per_scheme_witness :
  ∃ this',
    add (JStr "example.com") fresh = inr this' ∧
    urls this' = urls fresh ∪ {[ "http://example.com" ]} ∪ {[ "https://example.com" ]} ∧
    contains Glob.minimatch "http://example.com" this' = true ∧
    contains Glob.minimatch "https://example.com" this' = true.
Proof.
  destruct (proj1 add_inserts_a_pattern_per_scheme "example.com" fresh eq_refl)
    as (this' & Hadd & Hurls & Hc).
  exists this'. split; [exact Hadd|]. split; [exact Hurls|].
  split; apply (Hc Glob.minimatch); reflexivity.
Defined.

(** C5: [contains(url)] holds exactly when some stored pattern matches the
    candidate; on the glob matcher a [*] spans any run of characters, dots
    between subdomain labels included; against the default calendar
    whitelist ["https://sub.calendar.opentimestamps.org"] is contained and
    ["https://evil.com"] is not. *)
Theorem contains_is_glob_membership :
  (∀ (minimatch : string → string → bool) (url : string) (this : t),
     contains minimatch url this = true
     ↔ ∃ u, u ∈ urls this ∧ minimatch url u = true) ∧
  (∀ labels : string,
     Glob.minimatch ("https://" +:+ labels +:+ ".calendar.opentimestamps.org")
       "https://*.calendar.opentimestamps.org" = true) ∧
  (∃ whitelist,
     DEFAULT_CALENDAR_WHITELIST = inr whitelist ∧
     (∀ labels : string,
        contains Glob.minimatch
          ("https://" +:+ labels +:+ ".calendar.opentimestamps.org")
          whitelist = true) ∧
     contains Glob.minimatch "https://sub.calendar.opentimestamps.org" whitelist
     = true ∧
     contains Glob.minimatch "https://a.b.calendar.opentimestamps.org" whitelist
     = true ∧
     contains Glob.minimatch "https://evil.com" whitelist = false).
Proof.
  assert (Hstar : ∀ labels : string,
     Glob.minimatch ("https://" +:+ labels +:+ ".calendar.opentimestamps.org")
       "https://*.calendar.opentimestamps.org" = true).
  { intros labels. unfold Glob.minimatch.
    rewrite !list_ascii_of_string_app.
    cbn [list_ascii_of_string app].
    rewrite !glob_literal by reflexivity.
    apply glob_star_app, glob_refl. }
  split; [exact contains_iff|]. split; [exact Hstar|].
  eexists. split; [reflexivity|]. split.
  { intros labels. apply contains_iff.
    exists "https://*.calendar.opentimestamps.org". split; [|apply Hstar].
    cbn [urls]. set_solver. }
  split; [|split]; vm_compute; reflexivity.
Qed.

End WhitelistClaims.

(** ** Running the promise chains *)

Section ChainFacts.
Context `{Platform}.

(** The timer just armed is pending. *)
Lemma armed_is_pending (w : World) : next_timer w ∈ timers w ∪ {[ next_timer w ]}.
Proof. set_solver. Qed.

Lemma fetch_responds net req timeoutId w response :
  net req = Responds response → fetch net req timeoutId w = (Resolved response, w).
Proof. intros Hnet. unfold fetch. by rewrite Hnet. Qed.

Lemma fetch_fails net req timeoutId w f :
  net req = Fails f → fetch net req timeoutId w = (Rejected (raise f), w).
Proof. intros Hnet. unfold fetch. by rewrite Hnet. Qed.

Lemma fetch_silent net req id w abort_message :
  net req = Silent abort_message → id ∈ timers w →
  fetch net req (Some id) w
  = (Rejected (NativeError "AbortError" abort_message), fire id w).
Proof. intros Hnet Hid. unfold fetch. rewrite Hnet. by rewrite decide_True. Qed.

End ChainFacts.

(** Unfolds a method down to its [fetch]. *)
Ltac unfold_method :=
  unfold Calendar.submit, Calendar.getTimestamp, Esplora.blockhash, Esplora.block,
    Calendar.arm, Calendar.submit_chain, Calendar.getTimestamp_chain,
    Esplora.blockhash_chain, Esplora.block_chain, Calendar.submit_catch,
    Calendar.getTimestamp_catch, Esplora.on_error, catch_, then_, seq, clear_if_set;
  cbn [setTimeout fst snd].

Section ResponseFacts.
Context `{Platform}.

Lemma ok_not_404 (response : Response) :
  ok response = true → (status response =? 404) = false.
Proof. unfold ok. intros Hok. apply andb_true_iff in Hok. lia. Qed.

(** A non-empty message is what [err.message || err.toString()] gives. *)
Lemma message_or_toString_raise (f : Foreign) :
  f_message f ≠ "" → message_or_toString (raise f) = JStr (f_message f).
Proof.
  intros Hm. unfold message_or_toString, js_or. cbn.
  destruct (f_message f); [done | reflexivity].
Qed.

End ResponseFacts.

(** ** The size guard *)

Section SizeGuard.
Context `{Platform}.
Import Calendar.

(** C1, as the code has it: when the server answers [submit] or
    [getTimestamp] with a success status and a body longer than 10,000
    bytes, the call is rejected with the [ExceededSizeError], whatever the
    decoder would make of the body. *)
Theorem calendar_size_guard (this : RemoteCalendar) (bytes : list byte)
    (net : Network) (w : World) (response : Response) (body : list byte) :
  ok response = true →
  arrayBuffer response = Arrives body →
  10000 < Z.of_nat (length body) →
  (net (submit_request this bytes) = Responds response →
   (submit this bytes net w).1
   = Rejected (new_ ExceededSizeError (JStr "Calendar response exceeded size limit"))) ∧
  (net (getTimestamp_request this bytes) = Responds response →
   (getTimestamp this bytes net w).1
   = Rejected (new_ ExceededSizeError (JStr "Calendar response exceeded size limit"))).
Proof.
  intros Hok Hbody Hlen. apply Z.ltb_lt in Hlen.
  split; intros Hnet; unfold_method; destruct (truthy (timeout this));
    rewrite (fetch_responds _ _ _ _ _ Hnet);
    rewrite ?(ok_not_404 _ Hok), Hok; cbn [negb];
    rewrite Hbody; cbn [await resolve]; rewrite Hlen; reflexivity.
Qed.

End SizeGuard.

(** The theorem on a 10,001-byte body sent with status 200. *)
Lemma calendar_size_guard_witness :
  let net : Network :=
    λ _, Responds (Sample.response 200 "OK" Sample.long_bytes "" JNull) in
  (Calendar.submit (H := Sample.platform) Sample.calendar Sample.digest net
     Sample.world).1
  = Rejected (new_ Calendar.ExceededSizeError
                (JStr "Calendar response exceeded size limit")) ∧
  (Calendar.getTimestamp (H := Sample.platform) Sample.calendar Sample.digest net
     Sample.world).1
  = Rejected (new_ Calendar.ExceededSizeError
                (JStr "Calendar response exceeded size limit")).
Proof.
  intros net.
  destruct (@calendar_size_guard Sample.platform Sample.calendar Sample.digest net
              Sample.world (Sample.response 200 "OK" Sample.long_bytes "" JNull)
              Sample.long_bytes)
    as [Hsubmit Hget]; [reflexivity | reflexivity | vm_compute; reflexivity |].
  split; [apply Hsubmit | apply Hget]; reflexivity.
Defined.

(** C1 fails as stated: a 10,001-byte body sent with status 500 makes
    [submit] fail with the [URLError] of the status line, and [blockhash]
    resolves with a 10,001-character body. *)
Lemma size_guard_is_not_universal :
  10000 < Z.of_nat (length Sample.long_bytes) ∧
  (Calendar.submit (H := Sample.platform) Sample.calendar Sample.digest
     (λ _, Responds (Sample.response 500 "Internal Server Error"
                       Sample.long_bytes Sample.long_text JNull))
     Sample.world).1
  = Rejected (new_ Calendar.URLError (JStr "HTTP 500: Internal Server Error")) ∧
  instanceof (new_ Calendar.URLError (JStr "HTTP 500: Internal Server Error"))
    Calendar.ExceededSizeError = false ∧
  10000 < Z.of_nat (String.length Sample.long_text) ∧
  (Esplora.blockhash (H := Sample.platform) Sample.esplora "840000"
     (λ _, Responds (Sample.response 200 "OK" Sample.long_bytes Sample.long_text
                       JNull))
     Sample.world).1
  = Resolved Sample.long_text.
Proof. repeat split; vm_compute; reflexivity. Qed.

(** ** The 404 of [getTimestamp] *)

Section NotFound.
Context `{Platform}.
Import Calendar.

(** C2: when the server answers [getTimestamp] with status 404 the call is
    rejected with the [CommitmentNotFoundError] exactly as thrown; any
    other non-success status gives the plain [Error] of the status line,
    which is no instance of [CommitmentNotFoundError]. *)
Theorem getTimestamp_404_is_commitment_not_found (this : RemoteCalendar)
    (commitment : list byte) (net : Network) (w : World) (response : Response) :
  net (getTimestamp_request this commitment) = Responds response →
  (status response = 404 →
   (getTimestamp this commitment net w).1
   = Rejected (new_ CommitmentNotFoundError (JStr "Commitment not found"))) ∧
  (status response ≠ 404 → ok response = false →
   (getTimestamp this commitment net w).1
   = Rejected (new_Error (http_status_line response))) ∧
  instanceof (new_ CommitmentNotFoundError (JStr "Commitment not found"))
    CommitmentNotFoundError = true ∧
  instanceof (new_Error (http_status_line response)) CommitmentNotFoundError = false.
Proof.
  intros Hnet. split; [|split; [|split; reflexivity]].
  - intros H404. unfold_method. destruct (truthy (timeout this));
      rewrite (fetch_responds _ _ _ _ _ Hnet), H404; reflexivity.
  - intros Hne Hok. apply Z.eqb_neq in Hne.
    unfold_method. destruct (truthy (timeout this));
      rewrite (fetch_responds _ _ _ _ _ Hnet), Hne, Hok; reflexivity.
Qed.

End NotFound.

(** The theorem on a server that answers 404. *)
Lemma getTimestamp_404_is_commitment_not_found_witness :
  (Calendar.getTimestamp (H := Sample.platform) Sample.calendar Sample.digest
     (λ _, Responds (Sample.response 404 "Not Found" [] "" JNull)) Sample.world).1
  = Rejected (new_ Calendar.CommitmentNotFoundError (JStr "Commitment not found")).
Proof.
  apply (@getTimestamp_404_is_commitment_not_found Sample.platform Sample.calendar
           Sample.digest _ Sample.world
           (Sample.response 404 "Not Found" [] "" JNull));
    reflexivity.
Defined.

(** ** Timeouts and timers *)

Section Timeouts.
Context `{Platform}.

(** Tries every branch a call can take and closes the goal on the timer
    table in each. *)
Local Ltac timer_cases :=
  unfold_method; unfold fetch, await, resolve, throw, never, fire, clearTimeout,
    console_error;
  cbn [timers];
  match goal with
  | |- context [match ?b with Responds _ => _ | Fails _ => _ | Silent _ => _ end] =>
      destruct b as [response|f|abort_message]
  end;
  rewrite ?(decide_True _ _ (armed_is_pending _));
  repeat case_match; simplify_eq; cbn [fst snd timers] in *; set_solver.

Lemma submit_disarms (this : Calendar.RemoteCalendar) bytes net (w : World) :
  truthy (Calendar.timeout this) = true →
  timers (Calendar.submit this bytes net w).2 = timers w ∖ {[ next_timer w ]}.
Proof. intros Hset. unfold Calendar.submit, Calendar.arm. rewrite Hset. timer_cases. Qed.

Lemma getTimestamp_disarms (this : Calendar.RemoteCalendar) bytes net (w : World) :
  truthy (Calendar.timeout this) = true →
  timers (Calendar.getTimestamp this bytes net w).2 = timers w ∖ {[ next_timer w ]}.
Proof.
  intros Hset. unfold Calendar.getTimestamp, Calendar.arm. rewrite Hset. timer_cases.
Qed.

Lemma blockhash_disarms (this : Esplora.Esplora) height net (w : World) :
  timers (Esplora.blockhash this height net w).2 = timers w ∖ {[ next_timer w ]}.
Proof. timer_cases. Qed.

Lemma block_disarms (this : Esplora.Esplora) hash net (w : World) :
  timers (Esplora.block this hash net w).2 = timers w ∖ {[ next_timer w ]}.
Proof. timer_cases. Qed.


(** C3: with a timeout configured, a call whose server stays silent is
    rejected with the error ["Request timeout"] that the handler builds (a
    [URLError] in [submit], an [Error] elsewhere), never with the platform's
    [AbortError]; and once a call has run, whatever the server did, the
    timers pending are those pending before it without the one armed at its
    start ([next_timer w] is that timer's handle). *)
Theorem silent_server_times_out_and_timer_is_disarmed
    (calendar : Calendar.RemoteCalendar) (esplora : Esplora.Esplora)
    (bytes : list byte) (height hash : string) (net : Network) (w : World) :
  truthy (Calendar.timeout calendar) = true →
  ((∀ abort_message,
      net (Calendar.submit_request calendar bytes) = Silent abort_message →
      (Calendar.submit calendar bytes net w).1
      = Rejected (new_ Calendar.URLError (JStr "Request timeout"))) ∧
   (∀ abort_message,
      net (Calendar.getTimestamp_request calendar bytes) = Silent abort_message →
      (Calendar.getTimestamp calendar bytes net w).1
      = Rejected (new_Error "Request timeout")) ∧
   (∀ abort_message,
      net (Esplora.blockhash_request esplora height) = Silent abort_message →
      (Esplora.blockhash esplora height net w).1
      = Rejected (new_Error "Request timeout")) ∧
   (∀ abort_message,
      net (Esplora.block_request esplora hash) = Silent abort_message →
      (Esplora.block esplora hash net w).1
      = Rejected (new_Error "Request timeout"))) ∧
  (timers (Calendar.submit calendar bytes net w).2 = timers w ∖ {[ next_timer w ]} ∧
   timers (Calendar.getTimestamp calendar bytes net w).2
   = timers w ∖ {[ next_timer w ]} ∧
   timers (Esplora.blockhash esplora height net w).2 = timers w ∖ {[ next_timer w ]} ∧
   timers (Esplora.block esplora hash net w).2 = timers w ∖ {[ next_timer w ]}).
Proof.
  intros Hset. split.
  - assert (Harmed : next_timer w ∈ timers (setTimeout w).2)
      by apply armed_is_pending.
    cbn [setTimeout snd] in Harmed.
    repeat split; intros abort_message Hnet; unfold_method; rewrite ?Hset;
      rewrite (fetch_silent _ _ _ _ _ Hnet Harmed); reflexivity.
  - auto using submit_disarms, getTimestamp_disarms, blockhash_disarms,
      block_disarms.
Qed.

End Timeouts.

(** The theorem on a server that answers nothing. *)
Lemma silent_server_times_out_and_timer_is_disarmed_witness :
  let net : Network := λ _, Silent "This operation was aborted" in
  (Calendar.submit (H := Sample.platform) Sample.calendar Sample.digest net
     Sample.world).1
  = Rejected (new_ Calendar.URLError (JStr "Request timeout")) ∧
  (Esplora.block (H := Sample.platform) Sample.esplora "00" net Sample.world).1
  = Rejected (new_Error "Request timeout") ∧
  timers (Calendar.submit (H := Sample.platform) Sample.calendar Sample.digest
            net Sample.world).2
  = timers Sample.world ∖ {[ next_timer Sample.world ]}.
Proof.
  intros net.
  destruct (@silent_server_times_out_and_timer_is_disarmed Sample.platform
              Sample.calendar Sample.esplora Sample.digest "840000" "00" net
              Sample.world eq_refl)
    as [(Hsubmit & _ & _ & Hblock) (Htimer & _)].
  split; [exact (Hsubmit _ eq_refl)|].
  split; [exact (Hblock _ eq_refl) | exact Htimer].
Defined.

(** ** The bodies of [Esplora] *)

Section Explorer.
Context `{Platform}.
Import Esplora.

(** What [block] does with a parsed body behind a success status. *)
Lemma block_on_body (this : Esplora) (hash : string) (net : Network) (w : World)
    (response : Response) (body : JsValue) :
  net (block_request this hash) = Responds response →
  ok response = true → json response = Arrives body →
  (block this hash net w).1
  = if negb (truthy body) then Rejected (new_ URLError (JStr "Empty body"))
    else if negb (truthy (get_prop body "merkle_root"))
            || negb (truthy (get_prop body "timestamp"))
    then Rejected (new_ URLError body)
    else Resolved {| merkleroot := get_prop body "merkle_root";
                     time := get_prop body "timestamp" |}.
Proof.
  intros Hnet Hok Hjson. unfold_method.
  rewrite (fetch_responds _ _ _ _ _ Hnet), Hok. cbn [negb]. rewrite Hjson.
  cbn [await resolve].
  destruct (truthy body) eqn:Hbody; cbn [negb]; [|reflexivity].
  destruct (negb (truthy (get_prop body "merkle_root"))
            || negb (truthy (get_prop body "timestamp"))); [|reflexivity].
  unfold new_, js_or. rewrite Hbody. reflexivity.
Qed.

(** C6: behind a success status, the body
    [{"merkle_root":"abc","timestamp":123}] makes [block] resolve with the
    pair of ["abc"] and [123]; a body object that lacks the [merkle_root] or
    the [timestamp] field, as [{"merkle_root":"abc"}] does, makes it reject
    with the [URLError] that carries the body, and nothing is defaulted. *)
Theorem block_returns_pair_or_rejects_missing_field (this : Esplora)
    (hash : string) (net : Network) (w : World) (response : Response) :
  net (block_request this hash) = Responds response →
  ok response = true →
  (json response = Arrives Sample.header_json →
   (block this hash net w).1
   = Resolved {| merkleroot := JStr "abc"; time := JNum 123 |}) ∧
  (∀ fields,
     json response = Arrives (JObj fields) →
     assoc "merkle_root" fields = JUndefined ∨ assoc "timestamp" fields = JUndefined →
     (block this hash net w).1 = Rejected (new_ URLError (JObj fields))) ∧
  (json response = Arrives (JObj [ ("merkle_root", JStr "abc") ]) →
   (block this hash net w).1
   = Rejected (new_ URLError (JObj [ ("merkle_root", JStr "abc") ]))).
Proof.
  intros Hnet Hok.
  assert (Hmissing : ∀ fields,
     json response = Arrives (JObj fields) →
     assoc "merkle_root" fields = JUndefined ∨ assoc "timestamp" fields = JUndefined →
     (block this hash net w).1 = Rejected (new_ URLError (JObj fields))).
  { intros fields Hjson Habsent.
    rewrite (block_on_body _ _ _ _ _ _ Hnet Hok Hjson). cbn [truthy negb get_prop].
    destruct Habsent as [-> | ->]; cbn [truthy negb orb]; [reflexivity|].
    by rewrite orb_true_r. }
  split; [|split].
  - intros Hjson. by rewrite (block_on_body _ _ _ _ _ _ Hnet Hok Hjson).
  - exact Hmissing.
  - intros Hjson. apply Hmissing; [exact Hjson | by right].
Qed.

(** C10: behind a success status, a body that has both fields but a falsy
    value in one of them, as [{"merkle_root":"abc","timestamp":0}] and
    [{"merkle_root":"","timestamp":123}] have, makes [block] reject with
    the [URLError] that carries the body. *)
Theorem block_rejects_falsy_field (this : Esplora) (hash : string)
    (net : Network) (w : World) (response : Response) :
  net (block_request this hash) = Responds response →
  ok response = true →
  (∀ fields,
     json response = Arrives (JObj fields) →
     truthy (assoc "merkle_root" fields) = false
     ∨ truthy (assoc "timestamp" fields) = false →
     (block this hash net w).1 = Rejected (new_ URLError (JObj fields))) ∧
  (json response
   = Arrives (JObj [ ("merkle_root", JStr "abc"); ("timestamp", JNum 0) ]) →
   (block this hash net w).1
   = Rejected (new_ URLError
                 (JObj [ ("merkle_root", JStr "abc"); ("timestamp", JNum 0) ]))) ∧
  (json response
   = Arrives (JObj [ ("merkle_root", JStr ""); ("timestamp", JNum 123) ]) →
   (block this hash net w).1
   = Rejected (new_ URLError
                 (JObj [ ("merkle_root", JStr ""); ("timestamp", JNum 123) ]))).
Proof.
  intros Hnet Hok.
  assert (Hfalsy : ∀ fields,
     json response = Arrives (JObj fields) →
     truthy (assoc "merkle_root" fields) = false
     ∨ truthy (assoc "timestamp" fields) = false →
     (block this hash net w).1 = Rejected (new_ URLError (JObj fields))).
  { intros fields Hjson Hfalsy.
    rewrite (block_on_body _ _ _ _ _ _ Hnet Hok Hjson). cbn [truthy negb get_prop].
    destruct Hfalsy as [-> | ->]; cbn [negb orb]; [reflexivity|].
    by rewrite orb_true_r. }
  split; [exact Hfalsy|].
  split; intros Hjson; apply Hfalsy; try exact Hjson; [by right | by left].
Qed.

(** What [blockhash] does with a text body behind a success status. *)
Lemma blockhash_on_body (this : Esplora) (height : string) (net : Network)
    (w : World) (response : Response) (body : string) :
  net (blockhash_request this height) = Responds response →
  ok response = true → text response = Arrives body →
  (blockhash this height net w).1
  = if String.eqb body "" then Rejected (new_ URLError (JStr "Empty body"))
    else Resolved body.
Proof.
  intros Hnet Hok Htext. unfold_method.
  rewrite (fetch_responds _ _ _ _ _ Hnet), Hok. cbn [negb]. rewrite Htext.
  cbn [await resolve truthy]. rewrite negb_involutive.
  by destruct (String.eqb body "").
Qed.

(** C7, as the code has it: behind a success status, [blockhash] rejects
    with the [URLError] ["Empty body"] when the body is the empty string,
    and resolves with the body unchanged when it is any other string, as
    for ["00000000000000000000"]. *)
Theorem blockhash_rejects_empty_returns_rest (this : Esplora)
    (height : string) (net : Network) (w : World) (response : Response)
    (body : string) :
  net (blockhash_request this height) = Responds response →
  ok response = true →
  text response = Arrives body →
  (body = "" →
   (blockhash this height net w).1 = Rejected (new_ URLError (JStr "Empty body"))) ∧
  (body ≠ "" → (blockhash this height net w).1 = Resolved body) ∧
  (body = "00000000000000000000" →
   (blockhash this height net w).1 = Resolved "00000000000000000000").
Proof.
  intros Hnet Hok Htext.
  rewrite (blockhash_on_body _ _ _ _ _ _ Hnet Hok Htext).
  split; [|split].
  - by intros ->.
  - intros Hne. apply String.eqb_neq in Hne. by rewrite Hne.
  - by intros ->.
Qed.

End Explorer.

(** C6 on a server that sends the header of the claim. *)
Lemma block_returns_pair_or_rejects_missing_field_witness :
  (Esplora.block (H := Sample.platform) Sample.esplora "00"
     (λ _, Responds (Sample.response 200 "OK" [] "" Sample.header_json))
     Sample.world).1
  = Resolved {| Esplora.merkleroot := JStr "abc"; Esplora.time := JNum 123 |}.
Proof.
  apply (@block_returns_pair_or_rejects_missing_field Sample.platform
           Sample.esplora "00" _ Sample.world
           (Sample.response 200 "OK" [] "" Sample.header_json));
    reflexivity.
Defined.

(** C10 on a server that sends a zero timestamp. *)
Lemma block_rejects_falsy_field_witness :
  let body := JObj [ ("merkle_root", JStr "abc"); ("timestamp", JNum 0) ] in
  (Esplora.block (H := Sample.platform) Sample.esplora "00"
     (λ _, Responds (Sample.response 200 "OK" [] "" body)) Sample.world).1
  = Rejected (new_ Esplora.URLError body).
Proof.
  intros body.
  apply (proj1 (@block_rejects_falsy_field Sample.platform Sample.esplora "00" _
                  Sample.world (Sample.response 200 "OK" [] "" body)
                  eq_refl eq_refl));
    [reflexivity | by right].
Defined.

(** C7, amended, on a server that sends twenty zeros. *)
Lemma blockhash_rejects_empty_returns_rest_witness :
  (Esplora.blockhash (H := Sample.platform) Sample.esplora "840000"
     (λ _, Responds (Sample.response 200 "OK" [] "00000000000000000000" JNull))
     Sample.world).1
  = Resolved "00000000000000000000".
Proof.
  apply (@blockhash_rejects_empty_returns_rest Sample.platform Sample.esplora
           "840000" _ Sample.world
           (Sample.response 200 "OK" [] "00000000000000000000" JNull)
           "00000000000000000000");
    reflexivity.
Defined.

(** C7 fails as stated: a body of one space has zero length after trimming,
    and [blockhash] resolves with it. *)
Lemma blockhash_whitespace_body_is_returned :
  (Esplora.blockhash (H := Sample.platform) Sample.esplora "840000"
     (λ _, Responds (Sample.response 200 "OK" [] " " JNull)) Sample.world).1
  = Resolved " ".
Proof. vm_compute. reflexivity. Qed.

(** ** What the handlers pass on *)

Section Handlers.
Context `{Platform}.

Lemma classified_inv (err : JsError) :
  Calendar.classified err = true →
  ∃ message,
    err = ExtendedError "ExceededSizeError" message
    ∨ err = ExtendedError "CommitmentNotFoundError" message.
Proof.
  unfold Calendar.classified, instanceof. destruct err as [|name message]; [done|].
  intros Hcls. exists message. apply orb_true_iff in Hcls as [Hn|Hn];
    apply String.eqb_eq in Hn; subst name; auto.
Qed.

(** The handler of [submit] hands on the module's own errors, bar one. *)
Lemma submit_catch_passes (timeoutId : option nat) (err : JsError) (w : World) :
  instanceof err Calendar.ExceededSizeError
  || instanceof err Calendar.URLError = true →
  (Calendar.submit_catch timeoutId err w).1 = Rejected err.
Proof.
  unfold instanceof. destruct err as [|name message]; [done|].
  intros Hcls. apply orb_true_iff in Hcls as [Hn|Hn];
    apply String.eqb_eq in Hn; subst name; reflexivity.
Qed.

Lemma getTimestamp_catch_passes (timeoutId : option nat) (err : JsError) (w : World) :
  Calendar.classified err = true →
  (Calendar.getTimestamp_catch timeoutId err w).1 = Rejected err.
Proof.
  intros Hcls. destruct (classified_inv err Hcls) as (message & [-> | ->]);
    reflexivity.
Qed.

Lemma on_error_passes {A} (timeoutId : nat) (err : JsError) (w : World) :
  String.eqb (err_name err) "AbortError" = false →
  (Esplora.on_error (A := A) timeoutId err w).1 = Rejected err.
Proof. intros Hname. unfold Esplora.on_error, seq. by rewrite Hname. Qed.

(** No step of [submit] before its handler throws a
    [CommitmentNotFoundError]. *)
Lemma submit_chain_never_not_found bytes net req timeoutId (w : World) err :
  (Calendar.submit_chain bytes net req timeoutId w).1 = Rejected err →
  instanceof err Calendar.CommitmentNotFoundError = false.
Proof.
  unfold Calendar.submit_chain, then_, seq, fetch, await, resolve, throw, never.
  repeat case_match; simplify_eq; cbn [fst]; intros; simplify_eq; reflexivity.
Qed.

(** C8: an [ExceededSizeError] or [CommitmentNotFoundError] with which the
    chain of [submit] or of [getTimestamp] is rejected reaches the caller as
    the very error it was; so does every error, other than the platform's
    [AbortError], with which the chain of [blockhash] or of [block] is
    rejected.  (The timeout error is made in the handler itself.) *)
Theorem classified_error_is_rethrown_as_is
    (calendar : Calendar.RemoteCalendar) (esplora : Esplora.Esplora)
    (bytes : list byte) (height hash : string) (net : Network) (w : World) :
  (∀ err,
     Calendar.classified err = true →
     (Calendar.submit_chain bytes net (Calendar.submit_request calendar bytes)
        (Calendar.arm calendar w).1 (Calendar.arm calendar w).2).1 = Rejected err →
     (Calendar.submit calendar bytes net w).1 = Rejected err) ∧
  (∀ err,
     Calendar.classified err = true →
     (Calendar.getTimestamp_chain bytes net
        (Calendar.getTimestamp_request calendar bytes)
        (Calendar.arm calendar w).1 (Calendar.arm calendar w).2).1 = Rejected err →
     (Calendar.getTimestamp calendar bytes net w).1 = Rejected err) ∧
  (∀ err,
     String.eqb (err_name err) "AbortError" = false →
     (Esplora.blockhash_chain net (Esplora.blockhash_request esplora height)
        (setTimeout w).1 (setTimeout w).2).1 = Rejected err →
     (Esplora.blockhash esplora height net w).1 = Rejected err) ∧
  (∀ err,
     String.eqb (err_name err) "AbortError" = false →
     (Esplora.block_chain net (Esplora.block_request esplora hash)
        (setTimeout w).1 (setTimeout w).2).1 = Rejected err →
     (Esplora.block esplora hash net w).1 = Rejected err).
Proof.
  split; [|split; [|split]].
  - intros err Hcls. unfold Calendar.submit.
    destruct (Calendar.arm calendar w) as [timeoutId w1]. cbn [fst snd].
    intros Hchain. pose proof (submit_chain_never_not_found _ _ _ _ _ _ Hchain) as Hnf.
    unfold catch_.
    destruct (Calendar.submit_chain _ _ _ _ _) as [[a|err'|] w2];
      cbn [fst] in Hchain; simplify_eq.
    apply submit_catch_passes. unfold Calendar.classified in Hcls.
    rewrite Hnf, orb_false_r in Hcls. by rewrite Hcls.
  - intros err Hcls. unfold Calendar.getTimestamp.
    destruct (Calendar.arm calendar w) as [timeoutId w1]. cbn [fst snd].
    intros Hchain. unfold catch_.
    destruct (Calendar.getTimestamp_chain _ _ _ _ _) as [[a|err'|] w2];
      cbn [fst] in Hchain; simplify_eq.
    by apply getTimestamp_catch_passes.
  - intros err Hname. unfold Esplora.blockhash. cbn [setTimeout fst snd].
    intros Hchain. unfold catch_.
    destruct (Esplora.blockhash_chain _ _ _ _) as [[a|err'|] w2];
      cbn [fst] in Hchain; simplify_eq.
    by apply on_error_passes.
  - intros err Hname. unfold Esplora.block. cbn [setTimeout fst snd].
    intros Hchain. unfold catch_.
    destruct (Esplora.block_chain _ _ _ _) as [[a|err'|] w2];
      cbn [fst] in Hchain; simplify_eq.
    by apply on_error_passes.
Qed.

(** C9, as the code has it: a transport failure that is not the abort is
    wrapped by [submit] into a new [URLError], and by [getTimestamp] into a
    new [Error], that carries [err.message || err.toString()], which is the
    underlying message when there is one; [blockhash] and [block] reject
    with the error as the platform raised it. *)
Theorem transport_failure_is_wrapped_by_the_calendar
    (calendar : Calendar.RemoteCalendar) (esplora : Esplora.Esplora)
    (bytes : list byte) (height hash : string) (net : Network) (w : World)
    (f : Foreign) :
  String.eqb (f_name f) "AbortError" = false →
  (transport_fails net (Calendar.submit_request calendar bytes) arrayBuffer f →
   (Calendar.submit calendar bytes net w).1
   = Rejected (new_ Calendar.URLError (message_or_toString (raise f)))) ∧
  (transport_fails net (Calendar.getTimestamp_request calendar bytes) arrayBuffer f →
   (Calendar.getTimestamp calendar bytes net w).1
   = Rejected (new_Error (to_String (message_or_toString (raise f))))) ∧
  (transport_fails net (Esplora.blockhash_request esplora height) text f →
   (Esplora.blockhash esplora height net w).1 = Rejected (raise f)) ∧
  (transport_fails net (Esplora.block_request esplora hash) json f →
   (Esplora.block esplora hash net w).1 = Rejected (raise f)) ∧
  (f_message f ≠ "" → message_or_toString (raise f) = JStr (f_message f)).
Proof.
  intros Hname.
  split; [|split; [|split; [|split]]]; [| | | |apply message_or_toString_raise];
    (intros Hfails; unfold_method;
     try destruct (truthy (Calendar.timeout calendar));
     (destruct Hfails as [Hnet | (response & Hnet & Hok & Hread)];
      [ rewrite (fetch_fails _ _ _ _ _ Hnet)
      | rewrite (fetch_responds _ _ _ _ _ Hnet), ?(ok_not_404 _ Hok), Hok;
        cbn [negb]; rewrite Hread; cbn [await throw] ]));
    cbn [raise err_name]; rewrite Hname; cbn [instanceof orb]; reflexivity.
Qed.

End Handlers.

(** C8 on a 10,001-byte body sent with status 200: the [ExceededSizeError]
    thrown in the chain of [submit] is what the caller gets. *)
Lemma classified_error_is_rethrown_as_is_witness :
  (Calendar.submit (H := Sample.platform) Sample.calendar Sample.digest
     (λ _, Responds (Sample.response 200 "OK" Sample.long_bytes "" JNull))
     Sample.world).1
  = Rejected (new_ Calendar.ExceededSizeError
                (JStr "Calendar response exceeded size limit")).
Proof.
  apply (proj1 (@classified_error_is_rethrown_as_is Sample.platform
                  Sample.calendar Sample.esplora Sample.digest "840000" "00"
                  (λ _, Responds (Sample.response 200 "OK" Sample.long_bytes ""
                                    JNull))
                  Sample.world));
    [reflexivity | vm_compute; reflexivity].
Defined.

(** C9, amended, on a connection that the platform reports as failed. *)
Lemma transport_failure_is_wrapped_by_the_calendar_witness :
  let f := {| f_name := "TypeError"; f_message := "fetch failed" |} in
  (Calendar.submit (H := Sample.platform) Sample.calendar Sample.digest
     (λ _, Fails f) Sample.world).1
  = Rejected (ExtendedError "URLError" (JStr "fetch failed")) ∧
  (Calendar.getTimestamp (H := Sample.platform) Sample.calendar Sample.digest
     (λ _, Fails f) Sample.world).1
  = Rejected (NativeError "Error" "fetch failed").
Proof.
  intros f.
  destruct (@transport_failure_is_wrapped_by_the_calendar Sample.platform
              Sample.calendar Sample.esplora Sample.digest "840000" "00"
              (λ _, Fails f) Sample.world f eq_refl)
    as (Hsubmit & Hget & _).
  split; [exact (Hsubmit (or_introl eq_refl)) | exact (Hget (or_introl eq_refl))].
Defined.

(** C9 fails as stated: [blockhash] and [block] reject with the
    [TypeError] of the platform itself, not with a wrapper around it. *)
Lemma esplora_passes_the_platform_error_on :
  let f := {| f_name := "TypeError"; f_message := "fetch failed" |} in
  (Esplora.blockhash (H := Sample.platform) Sample.esplora "840000"
     (λ _, Fails f) Sample.world).1
  = Rejected (NativeError "TypeError" "fetch failed") ∧
  (Esplora.block (H := Sample.platform) Sample.esplora "00"
     (λ _, Fails f) Sample.world).1
  = Rejected (NativeError "TypeError" "fetch failed").
Proof. split; vm_compute; reflexivity. Qed.

(** * Further properties of the code *)

(** ** The whitelist as a set of schemed patterns *)

Section WhitelistMore.
Import UrlWhitelist.

Lemma has_scheme_http (url : string) : has_scheme ("http://" +:+ url) = true.
Proof. unfold has_scheme. simpl. by destruct url. Qed.

Lemma has_scheme_https (url : string) : has_scheme ("https://" +:+ url) = true.
Proof. unfold has_scheme. rewrite https_prefix. apply orb_true_r. Qed.

(** What [add] of a string stores, whichever branch it takes. *)
Lemma add_string (url : string) (this : t) :
  add (JStr url) this
  = inr {| urls := urls this ∪ (if has_scheme url then {[ url ]}
                                else {[ "http://" +:+ url; "https://" +:+ url ]}) |}.
Proof.
  unfold add, has_scheme.
  destruct (String.prefix "http://" url || String.prefix "https://" url);
    [reflexivity|].
  do 2 f_equal. set_solver.
Qed.

Lemma add_non_string (v : JsValue) (this : t) :
  is_string v = false →
  add v this = inl (NativeError "TypeError" "URL must be a string").
Proof. by destruct v. Qed.

Lemma add_all_strings (us : list JsValue) (this : t) :
  Forall (λ v, is_string v = true) us → ∃ this', add_all us this = inr this'.
Proof.
  intros Hall. revert this. induction Hall as [|v us Hv _ IH]; intros this.
  - by exists this.
  - destruct v; try discriminate. cbn [add_all]. rewrite add_string. apply IH.
Qed.

Lemma add_all_non_string (us : list JsValue) (this : t) :
  Exists (λ v, is_string v = false) us →
  add_all us this = inl (NativeError "TypeError" "URL must be a string").
Proof.
  intros Hex. revert this. induction us as [|v us IH]; intros this.
  - by apply Exists_nil in Hex.
  - cbn [add_all]. destruct (is_string v) eqn:Hv.
    + destruct v; try discriminate. rewrite add_string.
      apply IH. apply Exists_cons in Hex as [Hex|Hex]; [|done].
      cbn in Hex. discriminate.
    + by rewrite (add_non_string v this Hv).
Qed.

(** X1: the constructor builds a whitelist when every element of its
    argument is a string, and throws the [TypeError] of [add] when one is
    not, wherever it stands in the list. *)
Theorem constructor_accepts_only_strings (us : list JsValue) :
  (Forall (λ v, is_string v = true) us → ∃ this, new (Some us) = inr this) ∧
  (Exists (λ v, is_string v = false) us →
   new (Some us) = inl (NativeError "TypeError" "URL must be a string")).
Proof.
  split; intros Hus; cbn [new].
  - by apply add_all_strings.
  - by apply add_all_non_string.
Qed.

Lemma add_keeps_schemes (v : JsValue) (this this' : t) :
  (∀ u, u ∈ urls this → has_scheme u = true) →
  add v this = inr this' →
  ∀ u, u ∈ urls this' → has_scheme u = true.
Proof.
  intros Hinv Hadd u Hu. destruct v; try discriminate.
  rewrite add_string in Hadd. injection Hadd as <-. cbn [urls] in Hu.
  apply elem_of_union in Hu as [Hu|Hu]; [by apply Hinv|].
  destruct (has_scheme s) eqn:Hs.
  - apply elem_of_singleton in Hu. by subst u.
  - apply elem_of_union in Hu as [Hu|Hu]; apply elem_of_singleton in Hu; subst u;
      [apply has_scheme_http | apply has_scheme_https].
Qed.

Lemma add_all_keeps_schemes (us : list JsValue) (this this' : t) :
  (∀ u, u ∈ urls this → has_scheme u = true) →
  add_all us this = inr this' →
  ∀ u, u ∈ urls this' → has_scheme u = true.
Proof.
  revert this. induction us as [|v us IH]; intros this Hinv Hall.
  - cbn in Hall. by injection Hall as <-.
  - cbn [add_all] in Hall. destruct (add v this) as [err|this1] eqn:Hadd;
      [discriminate|].
    apply (IH this1); [|exact Hall]. by apply (add_keeps_schemes v this).
Qed.

(** X2: every pattern of a whitelist made by the constructor starts with
    [http://] or [https://], and [add] keeps it so. *)
Theorem whitelist_patterns_carry_a_scheme (us : list JsValue) (v : JsValue)
    (this this' : t) :
  new (Some us) = inr this →
  add v this = inr this' →
  (∀ u, u ∈ urls this → has_scheme u = true) ∧
  (∀ u, u ∈ urls this' → has_scheme u = true).
Proof.
  intros Hnew Hadd.
  assert (Hthis : ∀ u, u ∈ urls this → has_scheme u = true).
  { apply (add_all_keeps_schemes us fresh); [|exact Hnew].
    intros u Hu. by apply not_elem_of_empty in Hu. }
  split; [exact Hthis|]. by apply (add_keeps_schemes v this).
Qed.

(** X3: adding a pattern that is already there changes nothing, and two
    patterns added in either order give the same whitelist. *)
Theorem add_collapses_duplicates_and_ignores_order (a b : string) (this : t) :
  ∃ ta tb tab,
    add (JStr a) this = inr ta ∧
    add (JStr b) this = inr tb ∧
    add (JStr b) ta = inr tab ∧
    add (JStr a) tb = inr tab ∧
    add (JStr a) ta = inr ta.
Proof.
  eexists _, _, _. rewrite !add_string. cbn [urls].
  split; [reflexivity|]. split; [reflexivity|]. split; [reflexivity|].
  split; do 2 f_equal; set_solver.
Qed.

(** X4: [add] never revokes: a candidate that the whitelist contains is
    still contained after any further [add]. *)
Theorem add_never_revokes (minimatch : string → string → bool) (v : JsValue)
    (this this' : t) (url : string) :
  add v this = inr this' →
  contains minimatch url this = true →
  contains minimatch url this' = true.
Proof.
  intros Hadd Hc. apply contains_iff in Hc as (u & Hu & Hm).
  apply contains_iff. exists u. split; [|exact Hm].
  destruct v; try discriminate. rewrite add_string in Hadd.
  injection Hadd as <-. cbn [urls]. set_solver.
Qed.

(** The patterns of a whitelist after a run of [add]s of strings. *)
Lemma add_all_urls (us : list string) (this : t) :
  ∃ this',
    add_all (JStr <$> us) this = inr this' ∧
    ∀ p, p ∈ urls this' ↔
         p ∈ urls this
         ∨ ∃ u, u ∈ us ∧
                if has_scheme u then p = u
                else p = "http://" +:+ u ∨ p = "https://" +:+ u.
Proof.
  revert this. induction us as [|u us IH]; intros this.
  - exists this. split; [reflexivity|]. intros p. split; [by left|].
    intros [Hp|(u & Hu & _)]; [exact Hp | by apply not_elem_of_nil in Hu].
  - cbn [fmap list_fmap add_all]. rewrite add_string.
    destruct (IH {| urls := urls this ∪ (if has_scheme u then {[ u ]}
                              else {[ "http://" +:+ u; "https://" +:+ u ]}) |})
      as (this' & Hall & Hurls).
    exists this'. split; [exact Hall|]. intros p. rewrite Hurls. cbn [urls].
    split.
    + intros [Hp|(u' & Hu' & Hp)].
      * apply elem_of_union in Hp as [Hp|Hp]; [by left|]. right. exists u.
        split; [left|]. destruct (has_scheme u); set_solver.
      * right. exists u'. split; [by right | exact Hp].
    + intros [Hp|(u' & Hu' & Hp)]; [left; set_solver|].
      apply elem_of_cons in Hu' as [->|Hu'].
      * left. destruct (has_scheme u); set_solver.
      * right. by exists u'.
Qed.

(** X5: a whitelist made by the constructor from strings contains a
    candidate exactly when the matcher accepts it against one of the given
    strings, taken as it is when it carries a scheme and under both schemes
    when it does not; so the whitelist made from no string contains
    nothing. *)
Theorem constructor_then_contains (minimatch : string → string → bool)
    (us : list string) (url : string) :
  ∃ this,
    new (Some (JStr <$> us)) = inr this ∧
    (contains minimatch url this = true ↔
     ∃ u, u ∈ us ∧
          if has_scheme u then minimatch url u = true
          else minimatch url ("http://" +:+ u) = true
               ∨ minimatch url ("https://" +:+ u) = true) ∧
    (us = [] → contains minimatch url this = false).
Proof.
  destruct (add_all_urls us fresh) as (this & Hall & Hurls).
  assert (Hiff : contains minimatch url this = true ↔
     ∃ u, u ∈ us ∧
          if has_scheme u then minimatch url u = true
          else minimatch url ("http://" +:+ u) = true
               ∨ minimatch url ("https://" +:+ u) = true).
  { rewrite contains_iff. split.
    - intros (p & Hp & Hm). apply Hurls in Hp as [Hp|(u & Hu & Hp)];
        [by apply not_elem_of_empty in Hp|].
      exists u. split; [exact Hu|].
      destruct (has_scheme u); [by subst p|].
      destruct Hp as [-> | ->]; [by left | by right].
    - intros (u & Hu & Hm). destruct (has_scheme u) eqn:Hs.
      + exists u. split; [|exact Hm]. apply Hurls. right. exists u.
        split; [exact Hu|]. by rewrite Hs.
      + destruct Hm as [Hm|Hm]; eexists; (split; [|exact Hm]); apply Hurls;
          right; exists u; (split; [exact Hu|]); rewrite Hs; [by left | by right]. }
  exists this. split; [exact Hall|]. split; [exact Hiff|].
  intros ->. apply not_true_iff_false. rewrite Hiff.
  intros (u & Hu & _). by apply not_elem_of_nil in Hu.
Qed.

End WhitelistMore.

(** X2 on the whitelist of ["example.com"], to which a schemed pattern is
    added. *)
Lemma whitelist_patterns_carry_a_scheme_witness :
  has_scheme "https://example.com" = true ∧
  has_scheme "https://*.calendar.opentimestamps.org" = true.
Proof.
  destruct (whitelist_patterns_carry_a_scheme
              [ JStr "example.com" ] (JStr "https://*.calendar.opentimestamps.org")
              {| UrlWhitelist.urls :=
                   UrlWhitelist.urls UrlWhitelist.fresh
                   ∪ {[ "http://example.com" ]} ∪ {[ "https://example.com" ]} |}
              {| UrlWhitelist.urls :=
                   (UrlWhitelist.urls UrlWhitelist.fresh
                    ∪ {[ "http://example.com" ]} ∪ {[ "https://example.com" ]})
                   ∪ {[ "https://*.calendar.opentimestamps.org" ]} |}
              eq_refl eq_refl)
    as [Hthis Hthis'].
  split; [apply Hthis | apply Hthis']; cbn [UrlWhitelist.urls]; set_solver.
Defined.

(** X4 on the default calendar whitelist, to which ["example.com"] is
    added. *)
Lemma add_never_revokes_witness :
  UrlWhitelist.contains Glob.minimatch "https://alice.btc.calendar.opentimestamps.org"
    {| UrlWhitelist.urls :=
         ({[ "https://*.calendar.opentimestamps.org" ]} : gset string)
         ∪ {[ "http://example.com" ]} ∪ {[ "https://example.com" ]} |}
  = true.
Proof.
  apply (add_never_revokes Glob.minimatch (JStr "example.com")
           {| UrlWhitelist.urls := {[ "https://*.calendar.opentimestamps.org" ]} |});
    [reflexivity | vm_compute; reflexivity].
Defined.

(** ** How [then] and [catch] compose *)

Section Promises.
Context {A B : Type}.

Lemma then_resolved_inv (p : Async A) (f : A → Async B) (w : World) (b : B) :
  (then_ p f w).1 = Resolved b →
  ∃ a w', p w = (Resolved a, w') ∧ (f a w').1 = Resolved b.
Proof.
  unfold then_. destruct (p w) as [[a|err|] w']; cbn [fst]; try discriminate.
  intros Hf. by exists a, w'.
Qed.

Lemma catch_resolved_inv (p : Async A) (h : JsError → Async A) (w : World) (a : A) :
  (∀ err w', (h err w').1 ≠ Resolved a) →
  (catch_ p h w).1 = Resolved a → (p w).1 = Resolved a.
Proof.
  intros Hh. unfold catch_. destruct (p w) as [[a'|err|] w']; cbn [fst]; try done.
  intros Hha. by destruct (Hh err w').
Qed.

Lemma catch_rejected_inv (p : Async A) (h : JsError → Async A) (w : World)
    (err : JsError) :
  (catch_ p h w).1 = Rejected err →
  ∃ err0 w', p w = (Rejected err0, w') ∧ (h err0 w').1 = Rejected err.
Proof.
  unfold catch_. destruct (p w) as [[a'|err0|] w']; cbn [fst]; try discriminate.
  intros Hh. by exists err0, w'.
Qed.

Lemma keeps_console_then (p : Async A) (f : A → Async B) :
  keeps_console p → (∀ a, keeps_console (f a)) → keeps_console (then_ p f).
Proof.
  intros Hp Hf w. unfold then_. specialize (Hp w).
  destruct (p w) as [[a|err|] w']; cbn [snd] in *; [|done..].
  by rewrite (Hf a w').
Qed.


Lemma keeps_console_seq (effect : World → World) (rest : Async A) :
  (∀ w, console (effect w) = console w) → keeps_console rest →
  keeps_console (seq effect rest).
Proof. intros He Hr w. unfold seq. by rewrite Hr, He. Qed.

Lemma keeps_console_resolve (a : A) : keeps_console (resolve a).
Proof. by intros w. Qed.

Lemma keeps_console_throw (err : JsError) : keeps_console (throw (A := A) err).
Proof. by intros w. Qed.

Lemma keeps_console_await (r : Reply A) : keeps_console (await r).
Proof. by destruct r; intros w. Qed.

End Promises.

Lemma keeps_console_fetch net req timeoutId : keeps_console (fetch net req timeoutId).
Proof.
  intros w. unfold fetch. destruct (net req); [done..|].
  destruct timeoutId; [|done]. by case_decide.
Qed.

Lemma fetch_resolved_inv net req timeoutId (w w' : World) response :
  fetch net req timeoutId w = (Resolved response, w') →
  net req = Responds response ∧ w' = w.
Proof.
  unfold fetch. destruct (net req); [by intros [= -> ->] | done |].
  destruct timeoutId; [|done]. by case_decide.
Qed.

Lemma await_resolved_inv {A} (r : Reply A) (w : World) (a : A) :
  (await r w).1 = Resolved a → r = Arrives a.
Proof. destruct r; cbn; congruence. Qed.


(** ** Bodies, statuses and the decoder in [RemoteCalendar] *)

Section CalendarBodies.
Context `{Platform}.
Import Calendar.

(** X6: when the server answers [submit] or [getTimestamp] with a success
    status and a body of at most 10,000 bytes that the decoder accepts, the
    call resolves with the decoder's timestamp for that body and the digest
    (or commitment) of the call. *)
Theorem calendar_resolves_with_decoded_body (this : RemoteCalendar)
    (bytes : list byte) (net : Network) (w : World) (response : Response)
    (body : list byte) (timestamp : Timestamp) :
  ok response = true →
  arrayBuffer response = Arrives body →
  Z.of_nat (length body) ≤ 10000 →
  Timestamp_deserialize body bytes = inr timestamp →
  (net (submit_request this bytes) = Responds response →
   (submit this bytes net w).1 = Resolved timestamp) ∧
  (net (getTimestamp_request this bytes) = Responds response →
   (getTimestamp this bytes net w).1 = Resolved timestamp).
Proof.
  intros Hok Hbody Hlen Hdecode. apply Z.ltb_ge in Hlen.
  split; intros Hnet; unfold_method; destruct (truthy (timeout this));
    rewrite (fetch_responds _ _ _ _ _ Hnet);
    rewrite ?(ok_not_404 _ Hok), Hok; cbn [negb];
    rewrite Hbody; cbn [await resolve]; rewrite Hlen, Hdecode; reflexivity.
Qed.


End CalendarBodies.

Section StatusFirst.
Context `{Platform}.

(** X8: a response without a success status makes [submit] reject with the
    [URLError], and [blockhash] and [block] with the [Error], of the line
    [HTTP <status>: <statusText>]; no reader of the body is consulted, so
    the outcome is the same whatever the body is or does. *)
Theorem non_success_status_is_reported_before_the_body
    (calendar : Calendar.RemoteCalendar) (esplora : Esplora.Esplora)
    (bytes : list byte) (height hash : string) (net : Network) (w : World)
    (response : Response) :
  ok response = false →
  (net (Calendar.submit_request calendar bytes) = Responds response →
   (Calendar.submit calendar bytes net w).1
   = Rejected (new_ Calendar.URLError (JStr (http_status_line response)))) ∧
  (net (Esplora.blockhash_request esplora height) = Responds response →
   (Esplora.blockhash esplora height net w).1
   = Rejected (new_Error (http_status_line response))) ∧
  (net (Esplora.block_request esplora hash) = Responds response →
   (Esplora.block esplora hash net w).1
   = Rejected (new_Error (http_status_line response))).
Proof.
  intros Hok.
  split; [|split]; intros Hnet; unfold_method;
    try destruct (truthy (Calendar.timeout calendar));
    rewrite (fetch_responds _ _ _ _ _ Hnet), Hok; reflexivity.
Qed.

End StatusFirst.

(** X6 on a body of exactly 10,000 bytes. *)
Lemma calendar_resolves_with_decoded_body_witness :
  let net : Network :=
    λ _, Responds (Sample.response 200 "OK" Probe.full_bytes "" JNull) in
  Z.of_nat (length Probe.full_bytes) = 10000 ∧
  (Calendar.submit (H := Sample.platform) Sample.calendar Sample.digest net
     Sample.world).1 = Resolved Probe.full_bytes ∧
  (Calendar.getTimestamp (H := Sample.platform) Sample.calendar Sample.digest net
     Sample.world).1 = Resolved Probe.full_bytes.
Proof.
  intros net. split; [vm_compute; reflexivity|].
  destruct (@calendar_resolves_with_decoded_body Sample.platform Sample.calendar
              Sample.digest net Sample.world
              (Sample.response 200 "OK" Probe.full_bytes "" JNull)
              Probe.full_bytes Probe.full_bytes)
    as [Hsubmit Hget];
    [reflexivity | reflexivity | vm_compute; discriminate | reflexivity |].
  split; [apply Hsubmit | apply Hget]; reflexivity.
Defined.


(** X8 on a server that answers 503 and then never sends the body. *)
Lemma non_success_status_is_reported_before_the_body_witness :
  let response :=
    {| status := 503; statusText := "Service Unavailable";
       arrayBuffer := Stalls; text := Stalls; json := Stalls |} in
  (Calendar.submit (H := Sample.platform) Sample.calendar Sample.digest
     (λ _, Responds response) Sample.world).1
  = Rejected (ExtendedError "URLError" (JStr "HTTP 503: Service Unavailable")) ∧
  (Esplora.block (H := Sample.platform) Sample.esplora "00"
     (λ _, Responds response) Sample.world).1
  = Rejected (NativeError "Error" "HTTP 503: Service Unavailable").
Proof.
  intros response.
  destruct (@non_success_status_is_reported_before_the_body Sample.platform
              Sample.calendar Sample.esplora Sample.digest "840000" "00"
              (λ _, Responds response) Sample.world response eq_refl)
    as (Hsubmit & _ & Hblock).
  split; [exact (Hsubmit eq_refl) | exact (Hblock eq_refl)].
Defined.

(** ** What a call can reject with *)

Section Rejections.
Context `{Platform}.

(** Whatever reaches the handler of [submit], what leaves it is a
    [URLError] or an [ExceededSizeError]. *)
Lemma submit_catch_outcome (timeoutId : option nat) (err : JsError) (w : World) :
  ∃ err',
    (Calendar.submit_catch timeoutId err w).1 = Rejected err' ∧
    instanceof err' Calendar.URLError
    || instanceof err' Calendar.ExceededSizeError = true ∧
    String.eqb (err_name err') "AbortError" = false.
Proof.
  unfold Calendar.submit_catch, seq.
  destruct (String.eqb (err_name err) "AbortError") eqn:Hname;
    [by eexists|].
  destruct (instanceof err Calendar.ExceededSizeError
            || instanceof err Calendar.URLError) eqn:Hcls; [|by eexists].
  exists err. by rewrite orb_comm.
Qed.

(** What leaves the handler of [getTimestamp] is a
    [CommitmentNotFoundError], an [ExceededSizeError] or a plain [Error]. *)
Lemma getTimestamp_catch_outcome (timeoutId : option nat) (err : JsError)
    (w : World) :
  ∃ err',
    (Calendar.getTimestamp_catch timeoutId err w).1 = Rejected err' ∧
    (Calendar.classified err' = true ∨ ∃ message, err' = new_Error message) ∧
    String.eqb (err_name err') "AbortError" = false.
Proof.
  unfold Calendar.getTimestamp_catch, seq.
  destruct (String.eqb (err_name err) "AbortError") eqn:Hname;
    [eexists; eauto|].
  destruct (instanceof err Calendar.CommitmentNotFoundError
            || instanceof err Calendar.ExceededSizeError) eqn:Hcls;
    [|eexists; eauto].
  exists err. split; [done|]. split; [|done].
  left. unfold Calendar.classified. by rewrite orb_comm.
Qed.

(** The handler of [Esplora]: the error it rejects with, and the world it
    leaves. *)
Lemma on_error_outcome {A} (timeoutId : nat) (err : JsError) (w : World) :
  let err' :=
    if String.eqb (err_name err) "AbortError"
    then new_Error "Request timeout" else err in
  Esplora.on_error (A := A) timeoutId err w
  = (Rejected err',
     {| timers := timers w ∖ {[ timeoutId ]};
        next_timer := next_timer w;
        console := console w ++ [ response_error_line err' ] |})
  ∧ String.eqb (err_name err') "AbortError" = false.
Proof.
  unfold Esplora.on_error, seq.
  destruct (String.eqb (err_name err) "AbortError") eqn:Hname; by split.
Qed.

(** X9: whatever the server and the decoder do, an error with which
    [submit] rejects is a [URLError] or an [ExceededSizeError], and one with
    which [getTimestamp] rejects is a [CommitmentNotFoundError], an
    [ExceededSizeError] or a plain [Error]; the error of the platform or of
    the decoder never comes through as it was raised. *)
Theorem calendar_rejections_are_of_the_module
    (this : Calendar.RemoteCalendar) (bytes : list byte) (net : Network)
    (w : World) (err : JsError) :
  ((Calendar.submit this bytes net w).1 = Rejected err →
   instanceof err Calendar.URLError
   || instanceof err Calendar.ExceededSizeError = true) ∧
  ((Calendar.getTimestamp this bytes net w).1 = Rejected err →
   instanceof err Calendar.CommitmentNotFoundError
   || instanceof err Calendar.ExceededSizeError = true
   ∨ ∃ message, err = NativeError "Error" message).
Proof.
  split; intros Hrej.
  - unfold Calendar.submit in Hrej.
    destruct (Calendar.arm this w) as [timeoutId w1].
    apply catch_rejected_inv in Hrej as (err0 & w' & _ & Hcatch).
    destruct (submit_catch_outcome timeoutId err0 w') as (err' & Hout & Hcls & _).
    congruence.
  - unfold Calendar.getTimestamp in Hrej.
    destruct (Calendar.arm this w) as [timeoutId w1].
    apply catch_rejected_inv in Hrej as (err0 & w' & _ & Hcatch).
    destruct (getTimestamp_catch_outcome timeoutId err0 w')
      as (err' & Hout & Hcls & _).
    assert (err' = err) as -> by congruence.
    destruct Hcls as [Hcls | Hplain]; [left | by right].
    unfold Calendar.classified in Hcls. by rewrite orb_comm.
Qed.

(** X10: no call ever rejects with an error named [AbortError], whatever
    the server, the transport and the decoder do: the name that the handlers
    test for never reaches the caller. *)
Theorem no_call_rejects_with_AbortError
    (calendar : Calendar.RemoteCalendar) (esplora : Esplora.Esplora)
    (bytes : list byte) (height hash : string) (net : Network) (w : World)
    (err : JsError) :
  (Calendar.submit calendar bytes net w).1 = Rejected err
  ∨ (Calendar.getTimestamp calendar bytes net w).1 = Rejected err
  ∨ (Esplora.blockhash esplora height net w).1 = Rejected err
  ∨ (Esplora.block esplora hash net w).1 = Rejected err →
  err_name err ≠ "AbortError".
Proof.
  intros Hrej. apply String.eqb_neq.
  destruct Hrej as [Hrej | [Hrej | [Hrej | Hrej]]].
  - unfold Calendar.submit in Hrej.
    destruct (Calendar.arm calendar w) as [timeoutId w1].
    apply catch_rejected_inv in Hrej as (err0 & w' & _ & Hcatch).
    destruct (submit_catch_outcome timeoutId err0 w') as (err' & Hout & _ & Hname).
    congruence.
  - unfold Calendar.getTimestamp in Hrej.
    destruct (Calendar.arm calendar w) as [timeoutId w1].
    apply catch_rejected_inv in Hrej as (err0 & w' & _ & Hcatch).
    destruct (getTimestamp_catch_outcome timeoutId err0 w')
      as (err' & Hout & _ & Hname).
    congruence.
  - unfold Esplora.blockhash in Hrej. cbn [setTimeout] in Hrej.
    apply catch_rejected_inv in Hrej as (err0 & w' & _ & Hcatch).
    destruct (on_error_outcome (A := string) (next_timer w) err0 w')
      as [Hout Hname].
    rewrite Hout in Hcatch. cbn [fst] in Hcatch. congruence.
  - unfold Esplora.block in Hrej. cbn [setTimeout] in Hrej.
    apply catch_rejected_inv in Hrej as (err0 & w' & _ & Hcatch).
    destruct (on_error_outcome (A := Esplora.BlockHeader) (next_timer w) err0 w')
      as [Hout Hname].
    rewrite Hout in Hcatch. cbn [fst] in Hcatch. congruence.
Qed.

End Rejections.

(** X9 on a connection that the platform reports as reset. *)
Lemma calendar_rejections_are_of_the_module_witness :
  instanceof (ExtendedError "URLError" (JStr "socket hang up")) Calendar.URLError
  || instanceof (ExtendedError "URLError" (JStr "socket hang up"))
       Calendar.ExceededSizeError = true.
Proof.
  apply (proj1 (@calendar_rejections_are_of_the_module Sample.platform
                  Sample.calendar Sample.digest
                  (λ _, Fails {| f_name := "Error"; f_message := "socket hang up" |})
                  Sample.world _)).
  reflexivity.
Defined.

(** X10 on a transport whose own failure is named [AbortError]: [block]
    rejects with the [Error] ["Request timeout"]. *)
Lemma no_call_rejects_with_AbortError_witness :
  err_name (NativeError "Error" "Request timeout") ≠ "AbortError".
Proof.
  apply (@no_call_rejects_with_AbortError Sample.platform Sample.calendar
           Sample.esplora Sample.digest "840000" "00"
           (λ _, Fails {| f_name := "AbortError"; f_message := "aborted" |})
           Sample.world).
  right. right. right. reflexivity.
Defined.

(** ** What a call can resolve with *)

Section Resolutions.
Context `{Platform}.

Lemma submit_catch_never_resolves timeoutId err (w : World) (timestamp : Timestamp) :
  (Calendar.submit_catch timeoutId err w).1 ≠ Resolved timestamp.
Proof.
  destruct (submit_catch_outcome timeoutId err w) as (err' & Hout & _). congruence.
Qed.

Lemma getTimestamp_catch_never_resolves timeoutId err (w : World)
    (timestamp : Timestamp) :
  (Calendar.getTimestamp_catch timeoutId err w).1 ≠ Resolved timestamp.
Proof.
  destruct (getTimestamp_catch_outcome timeoutId err w) as (err' & Hout & _).
  congruence.
Qed.

Lemma on_error_never_resolves {A} timeoutId err (w : World) (a : A) :
  (Esplora.on_error timeoutId err w).1 ≠ Resolved a.
Proof.
  destruct (on_error_outcome (A := A) timeoutId err w) as [Hout _].
  rewrite Hout. discriminate.
Qed.

(** X11: [submit] and [getTimestamp] resolve only with what the decoder
    made of a body of at most 10,000 bytes that the server sent with a
    success status; nothing else ever comes back as a timestamp. *)
Theorem calendar_resolves_only_with_a_decoded_body
    (this : Calendar.RemoteCalendar) (bytes : list byte) (net : Network)
    (w : World) (timestamp : Timestamp) :
  ((Calendar.submit this bytes net w).1 = Resolved timestamp →
   ∃ response body,
     net (Calendar.submit_request this bytes) = Responds response ∧
     ok response = true ∧
     arrayBuffer response = Arrives body ∧
     Z.of_nat (length body) ≤ 10000 ∧
     Timestamp_deserialize body bytes = inr timestamp) ∧
  ((Calendar.getTimestamp this bytes net w).1 = Resolved timestamp →
   ∃ response body,
     net (Calendar.getTimestamp_request this bytes) = Responds response ∧
     ok response = true ∧
     status response ≠ 404 ∧
     arrayBuffer response = Arrives body ∧
     Z.of_nat (length body) ≤ 10000 ∧
     Timestamp_deserialize body bytes = inr timestamp).
Proof.
  split; intros Hres.
  - unfold Calendar.submit in Hres.
    destruct (Calendar.arm this w) as [timeoutId w1].
    apply catch_resolved_inv in Hres; [|intros; apply submit_catch_never_resolves].
    unfold Calendar.submit_chain in Hres.
    apply then_resolved_inv in Hres as (body & w3 & Hread & Hdecode).
    pose proof (f_equal fst Hread) as Hread1. cbn [fst] in Hread1.
    apply then_resolved_inv in Hread1 as (response & w2 & Hfetch & Hbody).
    apply fetch_resolved_inv in Hfetch as [Hnet ->].
    unfold seq in Hbody. destruct (ok response) eqn:Hok; [|discriminate].
    cbn [negb] in Hbody. apply await_resolved_inv in Hbody.
    destruct (10000 <? Z.of_nat (length body)) eqn:Hlen; [discriminate|].
    apply Z.ltb_ge in Hlen.
    destruct (Timestamp_deserialize body bytes) as [f|timestamp'] eqn:Hts;
      [discriminate|].
    cbn in Hdecode. exists response, body. by simplify_eq.
  - unfold Calendar.getTimestamp in Hres.
    destruct (Calendar.arm this w) as [timeoutId w1].
    apply catch_resolved_inv in Hres;
      [|intros; apply getTimestamp_catch_never_resolves].
    unfold Calendar.getTimestamp_chain in Hres.
    apply then_resolved_inv in Hres as (body & w3 & Hread & Hdecode).
    pose proof (f_equal fst Hread) as Hread1. cbn [fst] in Hread1.
    apply then_resolved_inv in Hread1 as (response & w2 & Hfetch & Hbody).
    apply fetch_resolved_inv in Hfetch as [Hnet ->].
    unfold seq in Hbody. destruct (status response =? 404) eqn:H404;
      [discriminate|].
    destruct (ok response) eqn:Hok; [|discriminate].
    cbn [negb] in Hbody. apply await_resolved_inv in Hbody.
    destruct (10000 <? Z.of_nat (length body)) eqn:Hlen; [discriminate|].
    apply Z.ltb_ge in Hlen. apply Z.eqb_neq in H404.
    destruct (Timestamp_deserialize body bytes) as [f|timestamp'] eqn:Hts;
      [discriminate|].
    cbn in Hdecode. exists response, body. by simplify_eq.
Qed.

(** X12: [blockhash] resolves only with a non-empty text that the server
    sent with a success status, and with that text as it came. *)
Theorem blockhash_resolves_only_with_the_text_sent (this : Esplora.Esplora)
    (height : string) (net : Network) (w : World) (body : string) :
  (Esplora.blockhash this height net w).1 = Resolved body →
  body ≠ "" ∧
  ∃ response,
    net (Esplora.blockhash_request this height) = Responds response ∧
    ok response = true ∧
    text response = Arrives body.
Proof.
  intros Hres. unfold Esplora.blockhash in Hres. cbn [setTimeout] in Hres.
  apply catch_resolved_inv in Hres; [|intros; apply on_error_never_resolves].
  unfold Esplora.blockhash_chain in Hres.
  apply then_resolved_inv in Hres as (body' & w3 & Hread & Hcheck).
  pose proof (f_equal fst Hread) as Hread1. cbn [fst] in Hread1.
  apply then_resolved_inv in Hread1 as (response & w2 & Hfetch & Hbody).
  apply fetch_resolved_inv in Hfetch as [Hnet ->].
  unfold seq in Hbody. destruct (ok response) eqn:Hok; [|discriminate].
  cbn [negb] in Hbody. apply await_resolved_inv in Hbody.
  cbn [truthy] in Hcheck. rewrite negb_involutive in Hcheck.
  destruct (String.eqb body' "") eqn:Hempty; [discriminate|].
  cbn in Hcheck. simplify_eq. apply String.eqb_neq in Hempty.
  split; [exact Hempty|]. by exists response.
Qed.

(** X13: [block] resolves only with the [merkle_root] and [timestamp] of a
    JSON body that the server sent with a success status, and never with a
    falsy or absent value in either field of the pair. *)
Theorem block_resolves_only_with_truthy_fields (this : Esplora.Esplora)
    (hash : string) (net : Network) (w : World) (header : Esplora.BlockHeader) :
  (Esplora.block this hash net w).1 = Resolved header →
  truthy (Esplora.merkleroot header) = true ∧
  truthy (Esplora.time header) = true ∧
  ∃ response body,
    net (Esplora.block_request this hash) = Responds response ∧
    ok response = true ∧
    json response = Arrives body ∧
    Esplora.merkleroot header = get_prop body "merkle_root" ∧
    Esplora.time header = get_prop body "timestamp".
Proof.
  intros Hres. unfold Esplora.block in Hres. cbn [setTimeout] in Hres.
  apply catch_resolved_inv in Hres; [|intros; apply on_error_never_resolves].
  unfold Esplora.block_chain in Hres.
  apply then_resolved_inv in Hres as (body & w3 & Hread & Hcheck).
  pose proof (f_equal fst Hread) as Hread1. cbn [fst] in Hread1.
  apply then_resolved_inv in Hread1 as (response & w2 & Hfetch & Hbody).
  apply fetch_resolved_inv in Hfetch as [Hnet ->].
  unfold seq in Hbody. destruct (ok response) eqn:Hok; [|discriminate].
  cbn [negb] in Hbody. apply await_resolved_inv in Hbody.
  destruct (truthy body); [|discriminate]. cbn [negb] in Hcheck.
  destruct (truthy (get_prop body "merkle_root")) eqn:Hroot; [|discriminate].
  destruct (truthy (get_prop body "timestamp")) eqn:Htime; [|discriminate].
  cbn in Hcheck. simplify_eq. cbn [Esplora.merkleroot Esplora.time].
  split; [exact Hroot|]. split; [exact Htime|]. by exists response, body.
Qed.

End Resolutions.

(** X11 on a decoder that returns the body it is given. *)
Lemma calendar_resolves_only_with_a_decoded_body_witness :
  let net : Network := λ _, Responds (Sample.response 200 "OK" Sample.digest "" JNull) in
  ∃ response body,
    net (Calendar.submit_request (H := Sample.platform) Sample.calendar Sample.digest)
    = Responds response ∧
    ok response = true ∧
    arrayBuffer response = Arrives body ∧
    Z.of_nat (length body) ≤ 10000 ∧
    Timestamp_deserialize (Platform := Sample.platform) body Sample.digest
    = inr Sample.digest.
Proof.
  intros net.
  apply (proj1 (@calendar_resolves_only_with_a_decoded_body Sample.platform
                  Sample.calendar Sample.digest net Sample.world Sample.digest)).
  reflexivity.
Defined.

(** X12 on a server that sends twenty zeros. *)
Lemma blockhash_resolves_only_with_the_text_sent_witness :
  let net : Network :=
    λ _, Responds (Sample.response 200 "OK" [] "00000000000000000000" JNull) in
  "00000000000000000000" ≠ "" ∧
  ∃ response,
    net (Esplora.blockhash_request Sample.esplora "840000") = Responds response ∧
    ok response = true ∧
    text response = Arrives "00000000000000000000".
Proof.
  intros net.
  apply (@blockhash_resolves_only_with_the_text_sent Sample.platform Sample.esplora
           "840000" net Sample.world).
  reflexivity.
Defined.

(** X13 on a server that sends a full header. *)
Lemma block_resolves_only_with_truthy_fields_witness :
  truthy (JStr "abc") = true ∧ truthy (JNum 123) = true.
Proof.
  destruct (@block_resolves_only_with_truthy_fields Sample.platform Sample.esplora
              "00" (λ _, Responds (Sample.response 200 "OK" [] "" Sample.header_json))
              Sample.world
              {| Esplora.merkleroot := JStr "abc"; Esplora.time := JNum 123 |}
              eq_refl)
    as (Hroot & Htime & _).
  split; [exact Hroot | exact Htime].
Defined.

(** ** Servers that stall, calendars without timeout *)

Section Stalls.
Context `{Platform}.


End Stalls.



(** ** The console *)

Section Console.
Context `{Platform}.

Lemma length_append (a b : string) :
  String.length (a +:+ b) = (String.length a + String.length b)%nat.
Proof. induction a as [|c a IH]; [reflexivity|]. simpl. by rewrite IH. Qed.

Lemma length_substring_0 (n : nat) (s : string) :
  (String.length (String.substring 0 n s) ≤ n)%nat.
Proof.
  revert s. induction n as [|n IH]; intros [|c s]; simpl; try lia.
  specialize (IH s). lia.
Qed.



Lemma keeps_console_blockhash_chain net req timeoutId :
  keeps_console (Esplora.blockhash_chain net req timeoutId).
Proof.
  unfold Esplora.blockhash_chain.
  apply keeps_console_then; [apply keeps_console_then|].
  - apply keeps_console_fetch.
  - intros response. apply keeps_console_seq; [done|].
    destruct (negb (ok response));
      [apply keeps_console_throw | apply keeps_console_await].
  - intros body. destruct (negb (truthy (JStr body)));
      [apply keeps_console_throw | apply keeps_console_resolve].
Qed.

Lemma keeps_console_block_chain net req timeoutId :
  keeps_console (Esplora.block_chain net req timeoutId).
Proof.
  unfold Esplora.block_chain.
  apply keeps_console_then; [apply keeps_console_then|].
  - apply keeps_console_fetch.
  - intros response. apply keeps_console_seq; [done|].
    destruct (negb (ok response));
      [apply keeps_console_throw | apply keeps_console_await].
  - intros body. destruct (negb (truthy body)); [apply keeps_console_throw|].
    destruct (negb (truthy (get_prop body "merkle_root"))
              || negb (truthy (get_prop body "timestamp")));
      [apply keeps_console_throw | apply keeps_console_resolve].
Qed.



(** What a call of [Esplora] leaves on the console, for either method. *)
Lemma esplora_console {A} (chain : Async A) (timeoutId : nat) (w : World) :
  keeps_console chain →
  console (catch_ chain (Esplora.on_error timeoutId) w).2
  = match (catch_ chain (Esplora.on_error timeoutId) w).1 with
    | Rejected err => (console w ++ [ response_error_line err ])%list
    | _ => console w
    end.
Proof.
  intros Hchain. specialize (Hchain w). unfold catch_.
  destruct (chain w) as [[a|err|] w']; cbn [fst snd] in *; [done| |done].
  destruct (on_error_outcome (A := A) timeoutId err w') as [-> _].
  cbn [fst snd console]. by rewrite Hchain.
Qed.

(** X16: [blockhash] and [block] write one line to the console when they
    reject, made of ["Response error: "] and the first 100 characters of the
    string form of the error that the caller gets, so of 116 characters at
    most; they write nothing when they resolve or stay pending. *)
Theorem esplora_logs_each_rejection_once (this : Esplora.Esplora)
    (height hash : string) (net : Network) (w : World) :
  console (Esplora.blockhash this height net w).2
  = match (Esplora.blockhash this height net w).1 with
    | Rejected err => (console w ++ [ response_error_line err ])%list
    | _ => console w
    end ∧
  console (Esplora.block this hash net w).2
  = match (Esplora.block this hash net w).1 with
    | Rejected err => (console w ++ [ response_error_line err ])%list
    | _ => console w
    end ∧
  ∀ err, (String.length (response_error_line err) ≤ 116)%nat.
Proof.
  split; [|split].
  - unfold Esplora.blockhash. cbn [setTimeout].
    rewrite esplora_console; [done | apply keeps_console_blockhash_chain].
  - unfold Esplora.block. cbn [setTimeout].
    rewrite esplora_console; [done | apply keeps_console_block_chain].
  - intros err. unfold response_error_line. rewrite length_append.
    pose proof (length_substring_0 100 (toString err)). cbn [String.length]. lia.
Qed.

End Console.

(** ** Constructor defaults and bodies that are not objects *)

Section ExplorerMore.
Context `{Platform}.
Import Esplora.

(** X17: an [Esplora] always has a non-empty url and a non-zero timeout: an
    option that is absent or falsy (the empty string, zero) gives way to the
    public url and to 1000, any other option is kept. *)
Theorem esplora_constructor_falls_back_on_falsy_options (options : Options) :
  url (new options) ≠ "" ∧
  timeout (new options) ≠ 0 ∧
  (∀ u, opt_url options = Some u → u ≠ "" → url (new options) = u) ∧
  (∀ t, opt_timeout options = Some t → t ≠ 0 → timeout (new options) = t) ∧
  (opt_url options = None ∨ opt_url options = Some "" →
   url (new options) = PUBLIC_ESPLORA_URL) ∧
  (opt_timeout options = None ∨ opt_timeout options = Some 0 →
   timeout (new options) = 1000).
Proof.
  destruct options as [ou ot]. cbn [new opt_url opt_timeout url timeout truthy].
  split_and!.
  - destruct ou as [u|]; [|done]. by destruct (String.eqb_spec u "").
  - destruct ot as [t|]; [|done]. by destruct (Z.eqb_spec t 0).
  - intros u -> Hu. by destruct (String.eqb_spec u "").
  - intros t -> Ht. by destruct (Z.eqb_spec t 0).
  - by intros [-> | ->].
  - by intros [-> | ->].
Qed.

(** X18: behind a success status, a JSON body that is not an object makes
    [block] reject with a [URLError]: the one of ["Empty body"] when the body
    is falsy ([null], [false], [0], the empty string), and one that carries
    the body when it is a number, a string, [true] or an array. *)
Theorem block_rejects_a_body_that_is_no_object (this : Esplora) (hash : string)
    (net : Network) (w : World) (response : Response) (body : JsValue) :
  net (block_request this hash) = Responds response →
  ok response = true →
  json response = Arrives body →
  (∀ fields, body ≠ JObj fields) →
  (block this hash net w).1
  = Rejected (new_ URLError (js_or body (JStr "Empty body"))).
Proof.
  intros Hnet Hok Hjson Hobj.
  rewrite (block_on_body _ _ _ _ _ _ Hnet Hok Hjson).
  unfold js_or. destruct (truthy body) eqn:Hbody; cbn [negb]; [|reflexivity].
  destruct body; try reflexivity. by destruct (Hobj fields).
Qed.

End ExplorerMore.

(** X18 on a server that sends the JSON number 42. *)
Lemma block_rejects_a_body_that_is_no_object_witness :
  (Esplora.block (H := Sample.platform) Sample.esplora "00"
     (λ _, Responds (Sample.response 200 "OK" [] "" (JNum 42))) Sample.world).1
  = Rejected (ExtendedError "URLError" (JNum 42)).
Proof.
  apply (@block_rejects_a_body_that_is_no_object Sample.platform Sample.esplora
           "00" _ Sample.world (Sample.response 200 "OK" [] "" (JNum 42)) (JNum 42));
    [reflexivity | reflexivity | reflexivity | discriminate].
Defined.

(** ** The timer table across calls *)

(** Tries every branch a call can take, leaving the goal of each. *)
Ltac world_cases :=
  unfold_method; unfold fetch, await, resolve, throw, never, fire, clearTimeout,
    console_error;
  cbn [timers next_timer];
  match goal with
  | |- context [match ?b with Responds _ => _ | Fails _ => _ | Silent _ => _ end] =>
      destruct b as [response|f|abort_message]
  end;
  rewrite ?(decide_True _ _ (armed_is_pending _));
  repeat case_match; simplify_eq; cbn [fst snd timers next_timer] in *.

Section TimerTable.
Context `{Platform}.

Lemma submit_next_timer (this : Calendar.RemoteCalendar) bytes net (w : World) :
  next_timer (Calendar.submit this bytes net w).2
  = if truthy (Calendar.timeout this) then S (next_timer w) else next_timer w.
Proof.
  unfold Calendar.submit, Calendar.arm.
  destruct (truthy (Calendar.timeout this)); world_cases; reflexivity.
Qed.

Lemma getTimestamp_next_timer (this : Calendar.RemoteCalendar) bytes net (w : World) :
  next_timer (Calendar.getTimestamp this bytes net w).2
  = if truthy (Calendar.timeout this) then S (next_timer w) else next_timer w.
Proof.
  unfold Calendar.getTimestamp, Calendar.arm.
  destruct (truthy (Calendar.timeout this)); world_cases; reflexivity.
Qed.

Lemma blockhash_next_timer (this : Esplora.Esplora) height net (w : World) :
  next_timer (Esplora.blockhash this height net w).2 = S (next_timer w).
Proof. world_cases; reflexivity. Qed.

Lemma block_next_timer (this : Esplora.Esplora) hash net (w : World) :
  next_timer (Esplora.block this hash net w).2 = S (next_timer w).
Proof. world_cases; reflexivity. Qed.

Lemma submit_unarmed_timers (this : Calendar.RemoteCalendar) bytes net (w : World) :
  truthy (Calendar.timeout this) = false →
  timers (Calendar.submit this bytes net w).2 = timers w.
Proof.
  intros Hunset. unfold Calendar.submit, Calendar.arm. rewrite Hunset.
  world_cases; reflexivity.
Qed.

Lemma getTimestamp_unarmed_timers (this : Calendar.RemoteCalendar) bytes net
    (w : World) :
  truthy (Calendar.timeout this) = false →
  timers (Calendar.getTimestamp this bytes net w).2 = timers w.
Proof.
  intros Hunset. unfold Calendar.getTimestamp, Calendar.arm. rewrite Hunset.
  world_cases; reflexivity.
Qed.

Lemma fresh_handle_not_pending (w : World) :
  handles_fresh w → timers w ∖ {[ next_timer w ]} = timers w.
Proof.
  intros Hfresh. apply set_eq. intros id. rewrite elem_of_difference, elem_of_singleton.
  split; [by intros [? _]|]. intros Hid. split; [done|].
  intros ->. specialize (Hfresh _ Hid). lia.
Qed.

Lemma handles_fresh_step (w w' : World) :
  handles_fresh w → timers w' = timers w → (next_timer w ≤ next_timer w')%nat →
  handles_fresh w'.
Proof.
  intros Hfresh Htimers Hnext id Hid. rewrite Htimers in Hid.
  specialize (Hfresh _ Hid). lia.
Qed.

(** X19: in a world where every pending timer was armed before, each of the
    four calls, whatever the server does and whether or not a timeout is
    configured, leaves the table of pending timers exactly as it found it,
    and leaves such a world again; so calls made one after the other never
    pile up timers nor clear one another's. *)
Theorem calls_leave_the_timer_table_as_found
    (calendar : Calendar.RemoteCalendar) (esplora : Esplora.Esplora)
    (bytes : list byte) (height hash : string) (net : Network) (w : World) :
  handles_fresh w →
  (timers (Calendar.submit calendar bytes net w).2 = timers w ∧
   handles_fresh (Calendar.submit calendar bytes net w).2) ∧
  (timers (Calendar.getTimestamp calendar bytes net w).2 = timers w ∧
   handles_fresh (Calendar.getTimestamp calendar bytes net w).2) ∧
  (timers (Esplora.blockhash esplora height net w).2 = timers w ∧
   handles_fresh (Esplora.blockhash esplora height net w).2) ∧
  (timers (Esplora.block esplora hash net w).2 = timers w ∧
   handles_fresh (Esplora.block esplora hash net w).2).
Proof.
  intros Hfresh.
  assert (Hsubmit : timers (Calendar.submit calendar bytes net w).2 = timers w).
  { destruct (truthy (Calendar.timeout calendar)) eqn:Hset.
    - rewrite (submit_disarms _ _ _ _ Hset). by apply fresh_handle_not_pending.
    - by apply submit_unarmed_timers. }
  assert (Hget : timers (Calendar.getTimestamp calendar bytes net w).2 = timers w).
  { destruct (truthy (Calendar.timeout calendar)) eqn:Hset.
    - rewrite (getTimestamp_disarms _ _ _ _ Hset). by apply fresh_handle_not_pending.
    - by apply getTimestamp_unarmed_timers. }
  assert (Hblockhash : timers (Esplora.blockhash esplora height net w).2 = timers w)
    by (rewrite blockhash_disarms; by apply fresh_handle_not_pending).
  assert (Hblock : timers (Esplora.block esplora hash net w).2 = timers w)
    by (rewrite block_disarms; by apply fresh_handle_not_pending).
  repeat split; try done; eapply handles_fresh_step; try done.
  - rewrite submit_next_timer. destruct (truthy _); lia.
  - rewrite getTimestamp_next_timer. destruct (truthy _); lia.
  - rewrite blockhash_next_timer. lia.
  - rewrite block_next_timer. lia.
Qed.

End TimerTable.

(** X19 on two calls made one after the other from a world with no timer:
    none is pending after the second. *)
Lemma calls_leave_the_timer_table_as_found_witness :
  let net : Network := λ _, Silent "This operation was aborted" in
  timers
    (Esplora.block (H := Sample.platform) Sample.esplora "00" net
       (Esplora.blockhash (H := Sample.platform) Sample.esplora "840000" net
          Sample.world).2).2
  = ∅.
Proof.
  intros net.
  assert (Hidle : handles_fresh Sample.world)
    by (intros id Hid; by apply not_elem_of_empty in Hid).
  destruct (@calls_leave_the_timer_table_as_found Sample.platform Sample.calendar
              Sample.esplora Sample.digest "840000" "00" net Sample.world Hidle)
    as (_ & _ & [Hfirst Hfresh] & _).
  destruct (@calls_leave_the_timer_table_as_found Sample.platform Sample.calendar
              Sample.esplora Sample.digest "840000" "00" net _ Hfresh)
    as (_ & _ & _ & [Hsecond _]).
  rewrite Hsecond, Hfirst. reflexivity.
Defined.
